(** * sitegenerator2: the generation pipeline of generator.py

    A shallow embedding of [generator.py].  Python text is a [string] whose
    characters are read as code points below 256.  The libraries the script
    calls (mistletoe, jinja2, yaml, the file system) are not part of the
    repository: they enter through the record [World], and the calls the
    script makes on the outside (logging, mkdir, copy, write, rmtree) are
    recorded, in order, as a list of [event]s. *)

From Stdlib Require Import String Ascii List Bool Arith ZArith Lia.
Import ListNotations.
Open Scope string_scope.

(** ** Python string methods used by the script *)

Module PyStr.

(** [s.startswith(p)] *)
Definition startswith (s p : string) : bool := String.prefix p s.

Fixpoint rev_acc (s acc : string) : string :=
  match s with
  | EmptyString => acc
  | String c s' => rev_acc s' (String c acc)
  end.

Definition rev (s : string) : string := rev_acc s EmptyString.

(** [s.endswith(p)] *)
Definition endswith (s p : string) : bool := String.prefix (rev p) (rev s).

(** [s[n:]] *)
Fixpoint drop (n : nat) (s : string) : string :=
  match n, s with
  | O, _ => s
  | S _, EmptyString => EmptyString
  | S k, String _ s' => drop k s'
  end.

(** The scan of [s.replace(old, new)] for a non-empty [old]: left to right,
    matches do not overlap.  [skip] counts the characters of a match still
    to be passed over. *)
Fixpoint replace_scan (old new : string) (skip : nat) (s : string) : string :=
  match s with
  | EmptyString => EmptyString
  | String c s' =>
      match skip with
      | S k => replace_scan old new k s'
      | O =>
          if String.prefix old s
          then new ++ replace_scan old new (String.length old - 1) s'
          else String c (replace_scan old new 0 s')
      end
  end.

(** With an empty [old] Python puts [new] before every character and at
    the end. *)
Fixpoint intersperse (new s : string) : string :=
  match s with
  | EmptyString => new
  | String c s' => new ++ String c (intersperse new s')
  end.

(** [s.replace(old, new)] *)
Definition replace (old new s : string) : string :=
  match old with
  | EmptyString => intersperse new s
  | _ => replace_scan old new 0 s
  end.

(** [s.split("\n")]: never empty, the empty text gives one empty line. *)
Fixpoint split_lines (s : string) : list string :=
  match s with
  | EmptyString => [EmptyString]
  | String c s' =>
      if Ascii.eqb c "010"%char
      then EmptyString :: split_lines s'
      else match split_lines s' with
           | l :: ls => String c l :: ls
           | [] => [String c EmptyString]
           end
  end.

(** [c.isspace()] on code points below 256. *)
Definition isspace (c : ascii) : bool :=
  let n := nat_of_ascii c in
  (((9 <=? n) && (n <=? 13)) || ((28 <=? n) && (n <=? 32))
   || (n =? 133) || (n =? 160))%nat.

(** [s.lstrip()] *)
Fixpoint lstrip (s : string) : string :=
  match s with
  | EmptyString => EmptyString
  | String c s' => if isspace c then lstrip s' else s
  end.

(** [s.rstrip()] *)
Definition rstrip (s : string) : string := rev (lstrip (rev s)).

(** [s.strip()] *)
Definition strip (s : string) : string := rstrip (lstrip s).

(** Index of the last ["."] of [s] that has a character other than ["."]
    somewhere before it: the split point of [os.path.splitext] on a name
    without directory part.  [seen] tells whether such a character was
    met, [i] is the index of the head of [s]. *)
Fixpoint ext_index (s : string) (i : nat) (seen : bool) : option nat :=
  match s with
  | EmptyString => None
  | String c s' =>
      let dot := Ascii.eqb c "."%char in
      match ext_index s' (S i) (seen || negb dot) with
      | Some j => Some j
      | None => if dot && seen then Some i else None
      end
  end.

(** [os.path.splitext(name)] for a [name] without ["/"]. *)
Definition splitext (name : string) : string * string :=
  match ext_index name 0 false with
  | Some j => (String.substring 0 j name, drop j name)
  | None => (name, EmptyString)
  end.

End PyStr.

(** ** get_first_heading *)

(** A value of YAML front matter or of the project variables.  The script
    itself only tells [None] from the rest and takes [str()] of a value. *)
Inductive value : Type :=
| VNone
| VStr (s : string)
| VObj (text : string).
  (* any other object (number, boolean, sequence, mapping); [text] is
     what [str()] gives for it *)

(** The loop of [get_first_heading] over the lines: the first line that
    starts with ["# "] decides; falling off the loop returns [None]. *)
Fixpoint first_heading_of (lines : list string) : value :=
  match lines with
  | [] => VNone
  | l :: rest =>
      if PyStr.startswith l "# "
      then VStr (PyStr.strip (PyStr.replace "# " EmptyString l))
      else first_heading_of rest
  end.

Definition get_first_heading (markdown : string) : value :=
  first_heading_of (PyStr.split_lines markdown).

(** [str(v)], as ['{}'.format(v)] computes it. *)
Definition py_str (v : value) : string :=
  match v with
  | VNone => "None"
  | VStr s => s
  | VObj text => text
  end.

(** ** Python dicts with string keys

    Insertion order is kept: assigning to a key that is present replaces
    its value in place, a new key goes to the end. *)

Definition dict : Type := list (string * value).

Fixpoint dict_get (k : string) (d : dict) : option value :=
  match d with
  | [] => None
  | (k', v) :: rest => if String.eqb k' k then Some v else dict_get k rest
  end.

(** [k in d] *)
Definition dict_mem (k : string) (d : dict) : bool :=
  match dict_get k d with Some _ => true | None => false end.

(** [d[k] = v] *)
Fixpoint dict_set (k : string) (v : value) (d : dict) : dict :=
  match d with
  | [] => [(k, v)]
  | (k', v') :: rest =>
      if String.eqb k' k then (k', v) :: rest else (k', v') :: dict_set k v rest
  end.

(** ** What a run does on the outside *)

Inductive level : Type := CRITICAL | ERROR | WARNING | INFO | DEBUG.

(** The log messages of the script, with the arguments of their format
    strings. *)
Inductive message : Type :=
| MsgRemovingBuild                (* 'Removing the build folder.' *)
| MsgTemplateNotSet               (* 'template not set in source file' *)
| MsgInvalidTemplate (name : value) (source fallback : string)
    (* 'Invalid template file ... for source ... . Fallback to default
       template ... .' *)
| MsgUsingTemplate                (* 'Using template file from source file.' *)
| MsgSettingTitle (title : value)      (* 'Setting title to {}' *)
| MsgOverwritingTitle (title : value)  (* 'Overwriting title to {}' *)
| MsgMarkdownFailed               (* 'Markdown Rendering failed.' *)
| MsgActuallyRendering (source : string) (* 'Actually rendering file {}' *)
| MsgRenderingFailed (source : string)
    (* 'Rendering of source ... to html failed.' *)
| MsgStartingRsync                (* 'Starting rsync.' *)
| MsgRsyncFailed                  (* 'Rsync failed.' *)
| MsgRsyncDone.                   (* 'rsync done.' *)

(** What argparse prints before it leaves the process. *)
Inductive printed : Type :=
| HelpText (subcommand : option string)
| UsageError (reason : string).

Inductive event : Type :=
| BasicConfig (loglevel : string) (logfile : option string)
| Log (l : level) (m : message)
| Rmtree (path : string)
| Mkdir (path : string)
| Copy (src dst : string)
| WriteFile (path data : string)
| CheckCall (command : string)
| Print (p : printed).

(** A library call returns or raises. *)
Inductive result (A : Type) : Type :=
| Ok (a : A)
| Raise (exn : string).
Arguments Ok {A} a.
Arguments Raise {A} exn.

(** How the process ends when it does not run to the end of the script. *)
Inductive outcome : Type :=
| SysExit (code : Z)        (* [sys.exit(code)] *)
| Uncaught (exn : string).  (* an exception nobody catches: traceback *)

Inductive ended (A : Type) : Type :=
| Normal (a : A)
| Abort (o : outcome).
Arguments Normal {A} a.
Arguments Abort {A} o.

(** The exit status the shell sees. *)
Definition exit_status {A : Type} (e : ended A) : Z :=
  match e with
  | Normal _ => 0
  | Abort (SysExit code) => code
  | Abort (Uncaught _) => 1
  end.

(** A piece of the script: the events it causes, in order, and how it
    ends. *)
Definition M (A : Type) : Type := (list event * ended A)%type.

Definition ret {A : Type} (a : A) : M A := ([], Normal a).

Definition bind {A B : Type} (m : M A) (f : A -> M B) : M B :=
  match m with
  | (t, Normal a) => let (t', r) := f a in ((t ++ t')%list, r)
  | (t, Abort o) => (t, Abort o)
  end.

Definition emit (e : event) : M unit := ([e], Normal tt).

Definition logging (l : level) (m : message) : M unit := emit (Log l m).

Definition sys_exit {A : Type} (code : Z) : M A := ([], Abort (SysExit code)).

(** A call outside [try]: an exception ends the process. *)
Definition call {A : Type} (r : result A) : M A :=
  match r with
  | Ok a => ret a
  | Raise exn => ([], Abort (Uncaught exn))
  end.

(** [try: x = r / except: handler] with a bare [except]. *)
Definition try_except {A : Type} (r : result A) (handler : M A) : M A :=
  match r with
  | Ok a => ret a
  | Raise _ => handler
  end.

(** [for a in l: s = body a s], left when a body aborts. *)
Fixpoint for_each {A S : Type} (body : A -> S -> M S) (l : list A) (s : S)
  : M S :=
  match l with
  | [] => ret s
  | a :: l' => bind (body a s) (for_each body l')
  end.

Declare Scope gen_scope.
Delimit Scope gen_scope with gen.
Notation "x <- m ;; k" := (bind m (fun x => k))
  (at level 61, m at next level, right associativity) : gen_scope.
Notation "m ;;; k" := (bind m (fun _ => k))
  (at level 61, right associativity) : gen_scope.
Open Scope gen_scope.

Definition trace {A : Type} (m : M A) : list event := fst m.
Definition ending {A : Type} (m : M A) : ended A := snd m.

(** ** The libraries and the file system the script runs against

    Two things are taken for granted throughout.  The calls that change
    the file system ([mkdir], [copy], writing a page, [rmtree]) are
    recorded as events and succeed: a call the operating system refuses
    is outside the model.  Rendering a template is a function of the
    template and of what it is given: a template that changes the dict
    it is handed is outside the model. *)

(** A directory as [os.walk] lists it: its sub-directories, in listing
    order, and the names of its files.  Symbolic links to directories,
    which [os.walk] lists among the sub-directories without visiting
    them, are not modelled. *)
#[warnings="-register-all"]
Inductive tree : Type :=
| Tree (dirs : list (string * tree)) (files : list string).

(** [os.path.join(a, b)] on POSIX. *)
Definition os_path_join (a b : string) : string :=
  if PyStr.startswith b "/" then b
  else if String.eqb a EmptyString || PyStr.endswith a "/" then a ++ b
  else a ++ "/" ++ b.

Definition walk_entry : Type := (string * list string * list string)%type.

(** [os.walk(top)], top-down: the triple of a directory comes before the
    triples of its sub-directories. *)
Fixpoint os_walk (top : string) (t : tree) : list walk_entry :=
  match t with
  | Tree dirs files =>
      (top, map fst dirs, files)
        :: flat_map (fun d => os_walk (os_path_join top (fst d)) (snd d)) dirs
  end.

(** The loaded [config.yml]: its [var] mapping and its [sync] mapping, each
    when present. *)
Record config : Type := {
  config_var : option dict;
  config_sync : option (list (string * dict))
}.

(** A keyword argument of [Template.render]. *)
Inductive binding : Type :=
| BStr (s : string)
| BDict (d : dict).

Record World : Type := {
  (* file system *)
  path_exists : string -> bool;            (* os.path.exists *)
  listdir_tree : string -> option tree;    (* the directory below a path *)
  read_text : string -> result string;     (* open(p, 'r').read() *)
  (* yaml *)
  safe_load : string -> result config;     (* of the file at a path *)
  (* mistletoe *)
  document : Type;
  Document_read : string -> result document;
  front_matter : document -> option (result dict);
    (* [None] when [document.front_matter is None], else [get_data()] *)
  HTMLRenderer_render : document -> result string;
  (* jinja2 *)
  template : Type;
  from_string : string -> result template;
  get_template : string -> value -> result template;
    (* of the environment loading from a search path *)
  render : template -> list (string * binding) -> result string;
  (* subprocess *)
  check_call : string -> result unit
}.

(** ** The command line *)

Inductive command : Type := main_generate_cmd | main_sync_cmd.

(** The [Namespace] of [parser.parse_args()]; [func] and [environment] are
    attributes only a sub-parser sets. *)
Record namespace : Type := {
  loglevel : string;
  logfile : option string;
  projectdir : string;
  func : option command;
  environment : option string
}.

Section Generator.

Variable w : World.

(** [set_logging]: one [logging.basicConfig] with the level and the
    handlers of the command line. *)
Definition set_logging (args : namespace) : M unit :=
  emit (BasicConfig (loglevel args) (logfile args)).

Definition get_config (projectdir : string) : M config :=
  call (safe_load w (projectdir ++ "/config.yml")).

Definition parse_markdown_with_front_matter (file_path : string)
  : M (dict * string * string) :=
  raw <- call (read_text w file_path) ;;
  document <- call (Document_read w raw) ;;
  front_matter_data <-
    match front_matter w document with
    | Some data => call data
    | None => ret []
    end ;;
  parsed_markdown <- call (HTMLRenderer_render w document) ;;
  ret (front_matter_data, parsed_markdown, raw).

(** [d[k]] for a key that is present. *)
Definition dict_item (k : string) (d : dict) : M value :=
  match dict_get k d with
  | Some v => ret v
  | None => call (Raise "KeyError")
  end.

Definition default_template : string := "default.html".

(** Lines 94-103: the template the article wants, with limits. *)
Definition choose_template (projectdir file_path : string)
  (front_matter : dict) : M value :=
  if negb (dict_mem "template" front_matter) then
    logging DEBUG MsgTemplateNotSet ;;;
    ret (VStr default_template)
  else
    name <- dict_item "template" front_matter ;;
    if negb (path_exists w (projectdir ++ "/templates/" ++ py_str name)) then
      logging WARNING (MsgInvalidTemplate name file_path default_template) ;;;
      ret (VStr default_template)
    else
      logging DEBUG MsgUsingTemplate ;;;
      ret name.

(** Lines 109-114: the [title] entry of [var]. *)
Definition set_title (front_matter : dict) (raw : string) (var : dict)
  : M dict :=
  let var := dict_set "title" (get_first_heading raw) var in
  title <- dict_item "title" var ;;
  logging DEBUG (MsgSettingTitle title) ;;;
  if dict_mem "title" front_matter then
    title <- dict_item "title" front_matter ;;
    let var := dict_set "title" title var in
    logging DEBUG (MsgOverwritingTitle title) ;;;
    ret var
  else ret var.

(** Lines 116-130: the two rendering passes. *)
Definition render_page (file_path content : string) (tmpl : template w)
  (var : dict) : M string :=
  contentenv <- call (from_string w content) ;;
  content <- try_except (render w contentenv [("var", BDict var)])
               (logging CRITICAL MsgMarkdownFailed ;;; sys_exit 1) ;;
  logging DEBUG (MsgActuallyRendering file_path) ;;;
  try_except (render w tmpl [("content", BStr content); ("var", BDict var)])
    (logging CRITICAL (MsgRenderingFailed file_path) ;;; sys_exit 1).

(** The body of [for file in files], lines 84-134.  [var] is the one
    dict of the run: what a file leaves in it, the next file finds. *)
Definition generate_file (projectdir root dest file : string) (var : dict)
  : M dict :=
  if negb (PyStr.endswith file "md") then
    emit (Copy (root ++ "/" ++ file) (dest ++ "/" ++ file)) ;;;
    ret var
  else
    let file_path := PyStr.replace "//" "/" (root ++ "/" ++ file) in
    parsed <- parse_markdown_with_front_matter file_path ;;
    let '(front_matter, content, raw) := parsed in
    name <- choose_template projectdir file_path front_matter ;;
    tmpl <- call (get_template w (projectdir ++ "/templates") name) ;;
    var <- set_title front_matter raw var ;;
    html <- render_page file_path content tmpl var ;;
    emit (WriteFile (dest ++ "/" ++ fst (PyStr.splitext file) ++ ".html")
            html) ;;;
    ret var.

(** The body of [for root, dirs, files in os.walk(...)], lines 81-134. *)
Definition generate_dir (projectdir builddir : string) (entry : walk_entry)
  (var : dict) : M dict :=
  let '(root, _, files) := entry in
  let dest :=
    builddir ++ PyStr.replace (projectdir ++ "/content/") EmptyString root in
  emit (Mkdir dest) ;;;
  for_each (generate_file projectdir root dest) files var.

(** Lines 68-71: the copy of [config['var']]. *)
Definition initial_var (c : config) : dict :=
  match config_var c with
  | Some d =>
      fold_left
        (fun var v =>
           match dict_get v d with
           | Some x => dict_set v x var
           | None => var
           end)
        (map fst d) []
  | None => []
  end.

(** The triples [os.walk] yields for the content folder; none when the
    folder is missing. *)
Definition walk_content (projectdir : string) : list walk_entry :=
  let top := projectdir ++ "/" ++ "content/" in
  match listdir_tree w top with
  | Some t => os_walk top t
  | None => []
  end.

Definition main_generate (args : namespace) : M unit :=
  set_logging args ;;;
  config <- get_config (projectdir args) ;;
  let var := initial_var config in
  let builddir := projectdir args ++ "/build/" in
  (if path_exists w builddir
   then logging DEBUG MsgRemovingBuild ;;; emit (Rmtree builddir)
   else ret tt) ;;;
  for_each (generate_dir (projectdir args) builddir)
    (walk_content (projectdir args)) var ;;;
  ret tt.

End Generator.

(** The events of lines 75-77: the old build folder goes when it exists. *)
Definition removal (w : World) (builddir : string) : list event :=
  if path_exists w builddir
  then [Log DEBUG MsgRemovingBuild; Rmtree builddir]
  else [].

Definition is_copy (e : event) : bool :=
  match e with Copy _ _ => true | _ => false end.

(** The ways the two passes of lines 116-130 fail, each with the events it
    leaves and the way the process ends: the body does not compile (line
    117, outside [try]), the content pass raises, the page pass raises. *)
Inductive pass_failure (w : World) (file_path content : string)
  (tmpl : template w) (var : dict) : list event -> outcome -> Prop :=
| content_compile_fails (exn : string) :
    from_string w content = Raise exn ->
    pass_failure w file_path content tmpl var [] (Uncaught exn)
| content_pass_fails (ct : template w) (exn : string) :
    from_string w content = Ok ct ->
    render w ct [("var", BDict var)] = Raise exn ->
    pass_failure w file_path content tmpl var
      [Log CRITICAL MsgMarkdownFailed] (SysExit 1)
| page_pass_fails (ct : template w) (c1 exn : string) :
    from_string w content = Ok ct ->
    render w ct [("var", BDict var)] = Ok c1 ->
    render w tmpl [("content", BStr c1); ("var", BDict var)] = Raise exn ->
    pass_failure w file_path content tmpl var
      [Log DEBUG (MsgActuallyRendering file_path);
       Log CRITICAL (MsgRenderingFailed file_path)] (SysExit 1).

(** A markdown file at [file_path] was read and parsed into front matter
    [fm], HTML body [content] and text [raw], and its template [tmpl] was
    chosen and loaded; [pre] are the events up to there. *)
Definition prepared (w : World) (projectdir file_path : string) (fm : dict)
  (content raw : string) (tmpl : template w) (pre : list event) : Prop :=
  exists (trp trc : list event) (name : value),
    parse_markdown_with_front_matter w file_path
    = (trp, Normal (fm, content, raw))
    /\ choose_template w projectdir file_path fm = (trc, Normal name)
    /\ get_template w (projectdir ++ "/templates") name = Ok tmpl
    /\ pre = (trp ++ trc)%list.

(** ** argparse, for the parser of lines 156-167

    [parse_args] is a partial account of argparse: options written in
    full, unambiguous abbreviations of long options, [--name=value],
    [-h], and positionals.  A namespace it returns is the one argparse
    returns.  It is stricter than argparse elsewhere: any other word that
    starts with ["-"] counts as an unrecognised argument, where argparse
    reads [--] as a separator and words like [-1] or with a space as
    positionals; and it goes left to right, where argparse rejects an
    ambiguous option before [-h] acts.  An error leaves through
    [parser.error] (usage on stderr, status 2); the help action prints
    the help text and leaves with status 0. *)

Module Argparse.

Inductive parsed : Type :=
| Namespace (ns : namespace)
| ParserExit (p : printed) (status : Z).

Definition error (reason : string) : parsed :=
  ParserExit (UsageError reason) 2.

Definition loglevel_choices : list string :=
  ["critical"; "error"; "warning"; "info"; "debug"].

Definition mem (s : string) (l : list string) : bool :=
  existsb (String.eqb s) l.

(** A word argparse reads as an option rather than as a positional. *)
Definition option_like (a : string) : bool :=
  PyStr.startswith a "-" && negb (String.eqb a "-").

(** [--name=value] at its first ["="]. *)
Fixpoint split_eq (a : string) : string * option string :=
  match a with
  | EmptyString => (EmptyString, None)
  | String c a' =>
      if Ascii.eqb c "="%char then (EmptyString, Some a')
      else let (n, v) := split_eq a' in (String c n, v)
  end.

(** The long options [name] is a prefix of. *)
Definition candidates (name : string) (long : list string) : list string :=
  if String.prefix "--" name && negb (String.eqb name "--")
  then filter (String.prefix name) long
  else [].

Inductive word : Type :=
| Positional
| Help
| Option_ (dest : string) (explicit : option string)
| Rejected
| Unknown.

Definition classify (long : list string) (a : string) : word :=
  if negb (option_like a) then Positional
  else if String.eqb a "-h" then Help
  else
    let (name, explicit) := split_eq a in
    match candidates name long with
    | [] => Unknown
    | [o] => if String.eqb o "--help"
             then match explicit with None => Help | Some _ => Rejected end
             else Option_ o explicit
    | _ => Rejected
    end.

(** The sub-parser of [generate] / [gen]: no argument of its own. *)
Fixpoint parse_generate (argv : list string) (extras : bool)
  : (bool + parsed) :=
  match argv with
  | [] => inl extras
  | a :: rest =>
      match classify ["--help"] a with
      | Help => inr (ParserExit (HelpText (Some "generate")) 0)
      | Rejected => inr (error "ignored explicit argument")
      | _ => parse_generate rest true
      end
  end.

(** The sub-parser of [sync]: one positional, [environment]. *)
Fixpoint parse_sync (argv : list string) (env : option string)
  (extras : bool) : (option string * bool + parsed) :=
  match argv with
  | [] => inl (env, extras)
  | a :: rest =>
      match classify ["--help"] a with
      | Help => inr (ParserExit (HelpText (Some "sync")) 0)
      | Rejected => inr (error "ignored explicit argument")
      | Positional =>
          match env with
          | None => parse_sync rest (Some a) extras
          | Some _ => parse_sync rest env true
          end
      | _ => parse_sync rest env true
      end
  end.

Definition finish (extras : bool) (ns : namespace) : parsed :=
  if extras then error "unrecognized arguments" else Namespace ns.

(** The second positional is the sub-command, the rest is its own. *)
Definition subcommand (name : string) (rest : list string) (extras : bool)
  (lvl : string) (lf : option string) (pd : string) : parsed :=
  if mem name ["generate"; "gen"] then
    match parse_generate rest extras with
    | inl extras =>
        finish extras
          {| loglevel := lvl; logfile := lf; projectdir := pd;
             func := Some main_generate_cmd; environment := None |}
    | inr p => p
    end
  else if String.eqb name "sync" then
    match parse_sync rest None extras with
    | inl (Some env, extras) =>
        finish extras
          {| loglevel := lvl; logfile := lf; projectdir := pd;
             func := Some main_sync_cmd; environment := Some env |}
    | inl (None, _) =>
        error "the following arguments are required: environment"
    | inr p => p
    end
  else error "invalid choice".

(** The main parser, left to right.  [lvl], [lf] and [pd] are the
    attributes set so far. *)
Fixpoint parse_main (argv : list string) (extras : bool) (lvl : string)
  (lf : option string) (pd : option string) : parsed :=
  match argv with
  | [] =>
      match pd with
      | None => error "the following arguments are required: projectdir"
      | Some p =>
          finish extras
            {| loglevel := lvl; logfile := lf; projectdir := p;
               func := None; environment := None |}
      end
  | a :: rest =>
      match classify ["--loglevel"; "--logfile"; "--help"] a with
      | Help => ParserExit (HelpText None) 0
      | Rejected => error "ambiguous option or ignored explicit argument"
      | Unknown => parse_main rest true lvl lf pd
      | Option_ o (Some v) =>
          if String.eqb o "--loglevel" then
            if mem v loglevel_choices then parse_main rest extras v lf pd
            else error "invalid choice"
          else parse_main rest extras lvl (Some v) pd
      | Option_ o None =>
          match rest with
          | v :: rest' =>
              if option_like v then error "expected one argument"
              else if String.eqb o "--loglevel" then
                if mem v loglevel_choices
                then parse_main rest' extras v lf pd
                else error "invalid choice"
              else parse_main rest' extras lvl (Some v) pd
          | [] => error "expected one argument"
          end
      | Positional =>
          match pd with
          | None => parse_main rest extras lvl lf (Some a)
          | Some p => subcommand a rest extras lvl lf p
          end
      end
  end.

(** [parser.parse_args(argv)] *)
Definition parse_args (argv : list string) : parsed :=
  parse_main argv false "INFO" None None.

End Argparse.

Section Main.

Variable w : World.

Definition main_sync (args : namespace) : M unit :=
  set_logging args ;;;
  let builddir := projectdir args ++ "/build/" in
  config <- get_config w (projectdir args) ;;
  sync <- match config_sync config with
          | Some s => ret s
          | None => call (Raise "KeyError")
          end ;;
  env <- match environment args with
         | Some e => ret e
         | None => call (Raise "AttributeError")
         end ;;
  target <- match find (fun p => String.eqb (fst p) env) sync with
            | Some p => ret (snd p)
            | None => call (Raise "KeyError")
            end ;;
  dest <- dict_item "dest" target ;;
  logging INFO MsgStartingRsync ;;;
  let command := "rsync -az --delete " ++ builddir ++ " " ++ py_str dest in
  emit (CheckCall command) ;;;
  try_except (check_call w command)
    (logging CRITICAL MsgRsyncFailed ;;; sys_exit 1) ;;;
  logging INFO MsgRsyncDone.

(** [parser.parse_args(argv)] as a piece of the script: a parser exit
    prints and leaves the process. *)
Definition parse_args (argv : list string) : M namespace :=
  match Argparse.parse_args argv with
  | Argparse.Namespace ns => ret ns
  | Argparse.ParserExit p status => emit (Print p) ;;; sys_exit status
  end.

(** Lines 169-173, for the words [argv] after the program name. *)
Definition main (argv : list string) : M unit :=
  args <- parse_args argv ;;
  match func args with
  | Some main_generate_cmd => main_generate w args
  | Some main_sync_cmd => main_sync args
  | None => parse_args ["--help"] ;;; ret tt
  end.

End Main.

(** ** A small world to run the script in

    Stand-ins for the libraries, enough to run the scenarios: front matter
    is a block of [key: value] lines between two [---] lines, markdown
    turns [# x] into a heading and any other line into a paragraph, and a
    template may hold [{{ content }}] and [{{ var.NAME }}]; an expression
    left over after substitution is an error. *)

Module Mini.

Fixpoint contains (p s : string) : bool :=
  String.prefix p s
  || match s with
     | EmptyString => false
     | String _ s' => contains p s'
     end.

Fixpoint join_lines (ls : list string) : string :=
  match ls with
  | [] => EmptyString
  | [l] => l
  | l :: rest => l ++ String "010"%char (join_lines rest)
  end.

(** [key: value] at its first [": "]. *)
Fixpoint key_value (l : string) : string * string :=
  match l with
  | EmptyString => (EmptyString, EmptyString)
  | String c l' =>
      if String.prefix ": " l then (EmptyString, PyStr.drop 2 l)
      else let (k, v) := key_value l' in (String c k, v)
  end.

(** The lines of the front-matter block and the lines after it. *)
Fixpoint until_fence (ls : list string) : list string * list string :=
  match ls with
  | [] => ([], [])
  | l :: rest =>
      if String.eqb l "---" then ([], rest)
      else let (block, body) := until_fence rest in (l :: block, body)
  end.

Definition split_document (raw : string)
  : option (list string) * list string :=
  match PyStr.split_lines raw with
  | l :: rest =>
      if String.eqb l "---"
      then let (block, body) := until_fence rest in (Some block, body)
      else (None, l :: rest)
  | [] => (None, [])
  end.

Definition yaml_block (raw : string) : option (result dict) :=
  match fst (split_document raw) with
  | Some block =>
      Some (Ok (map (fun l => let (k, v) := key_value l in (k, VStr v))
                  block))
  | None => None
  end.

Definition html_line (l : string) : string :=
  if PyStr.startswith l "# "
  then "<h1>" ++ PyStr.drop 2 l ++ "</h1>"
  else "<p>" ++ l ++ "</p>".

Definition html (raw : string) : result string :=
  Ok (join_lines (map html_line (snd (split_document raw)))).

Definition lookup (k : string) (l : list (string * string))
  : option string :=
  option_map snd (find (fun p => String.eqb (fst p) k) l).

Fixpoint binding_of (k : string) (bs : list (string * binding))
  : option binding :=
  match bs with
  | [] => None
  | (k', b) :: rest => if String.eqb k' k then Some b else binding_of k rest
  end.

Definition substitute_var (d : dict) (t : string) : string :=
  fold_left
    (fun t kv => PyStr.replace ("{{ var." ++ fst kv ++ " }}")
                   (py_str (snd kv)) t)
    d t.

Definition substitute (t : string) (bs : list (string * binding))
  : result string :=
  let t1 := match binding_of "var" bs with
            | Some (BDict d) => substitute_var d t
            | _ => t
            end in
  let body := match binding_of "content" bs with
              | Some (BStr c) => Some c
              | _ => None
              end in
  let rest := match body with
              | Some _ => PyStr.replace "{{ content }}" EmptyString t1
              | None => t1
              end in
  if contains "{{" rest then Raise "UndefinedError"
  else Ok match body with
          | Some c => PyStr.replace "{{ content }}" c t1
          | None => t1
          end.

(** A project: the text files of the content folder by path, the content
    folder as a tree, the templates by name, the paths that exist besides
    them, and the configuration. *)
Record project : Type := {
  dir : string;
  content : option tree;
  texts : list (string * string);
  templates : list (string * string);
  existing : list string;
  settings : result config
}.

Definition world (p : project) : World := {|
  path_exists path :=
    existsb (String.eqb path) (existing p)
    || existsb (fun t => String.eqb path (dir p ++ "/templates/" ++ fst t))
         (templates p);
  listdir_tree top :=
    if String.eqb top (dir p ++ "/content/") then content p else None;
  read_text path :=
    match lookup path (texts p) with
    | Some text => Ok text
    | None => Raise "FileNotFoundError"
    end;
  safe_load path :=
    if String.eqb path (dir p ++ "/config.yml") then settings p
    else Raise "FileNotFoundError";
  document := string;
  Document_read raw := Ok raw;
  front_matter := yaml_block;
  HTMLRenderer_render := html;
  template := string;
  from_string source := Ok source;
  get_template searchpath name :=
    match name with
    | VStr n =>
        if String.eqb searchpath (dir p ++ "/templates")
        then match lookup n (templates p) with
             | Some source => Ok source
             | None => Raise "TemplateNotFound"
             end
        else Raise "TemplateNotFound"
    | _ => Raise "TemplateNotFound"
    end;
  render := substitute;
  check_call _ := Ok tt
|}.

Definition generate (p : project) : namespace := {|
  loglevel := "INFO"; logfile := None; projectdir := dir p;
  func := Some main_generate_cmd; environment := None
|}.

End Mini.

(** ** Projects the statements below are run on *)

Module Scenarios.

Definition nl : string := String "010"%char EmptyString.

Definition plain_config : result config :=
  Ok {| config_var := Some [("name", VStr "Ben")]; config_sync := None |}.

(** One article with a [title] key and a heading, one asset, one
    Windows script. *)
Definition site : Mini.project := {|
  Mini.dir := "p";
  Mini.content := Some (Tree [] ["a.md"; "logo.png"; "run.cmd"]);
  Mini.texts :=
    [("p/content/a.md",
      "---" ++ nl ++ "title: Hello" ++ nl ++ "---" ++ nl
      ++ "# World" ++ nl ++ "Text {{ var.name }}");
     ("p/content/run.cmd", "echo hi")];
  Mini.templates :=
    [("default.html", "<html>{{ var.title }}:{{ content }}</html>")];
  Mini.existing := ["p/build/"];
  Mini.settings := plain_config
|}.

(** [c.md] asks for a template that is not there; [d.md] has neither a
    title nor a heading; [e.md] uses a variable nobody defines. *)
Definition blog : Mini.project := {|
  Mini.dir := "p";
  Mini.content := Some (Tree [("sub", Tree [] ["z.md"])]
                          ["c.md"; "d.md"; "e.md"; "f.md"]);
  Mini.texts :=
    [("p/content/c.md",
      "---" ++ nl ++ "template: special.html" ++ nl ++ "---" ++ nl
      ++ "# Only Heading" ++ nl ++ "Body");
     ("p/content/d.md", "just text");
     ("p/content/e.md", "# Broken" ++ nl ++ "{{ var.missing }}");
     ("p/content/f.md", "# Never reached");
     ("p/content/sub/z.md", "# Neither")];
  Mini.templates := [("default.html", "<html>{{ content }}</html>")];
  Mini.existing := [];
  Mini.settings := plain_config
|}.

(** The content folder of project [a] holds a folder [a/content/x]. *)
Definition nested : Mini.project := {|
  Mini.dir := "a";
  Mini.content :=
    Some (Tree [("a", Tree [("content", Tree [("x", Tree [] ["f.txt"])] [])]
                        [])] []);
  Mini.texts := [];
  Mini.templates := [("default.html", "<html>{{ content }}</html>")];
  Mini.existing := [];
  Mini.settings := plain_config
|}.

End Scenarios.

(** ** Notions the further properties are stated with *)

(** [p in s]: [p] occurs somewhere in [s]. *)
Fixpoint occurs (p s : string) : bool :=
  String.prefix p s
  || match s with
     | EmptyString => false
     | String _ s' => occurs p s'
     end.

(** Every character of [s] is a dot. *)
Fixpoint all_dots (s : string) : bool :=
  match s with
  | EmptyString => true
  | String c s' => Ascii.eqb c "."%char && all_dots s'
  end.

(** No character of [s] is a dot. *)
Fixpoint no_dot (s : string) : bool :=
  match s with
  | EmptyString => true
  | String c s' => negb (Ascii.eqb c "."%char) && no_dot s'
  end.

(** The calls of lines 73-134 on the file system and on other programs,
    for build folder [builddir]: [mkdir], the destination of a copy and a
    written page are at paths whose text begins with [builddir], the only
    [rmtree] is of [builddir] itself, no command is run and nothing goes
    through argparse.  What logging does with a record (standard output
    and the log file of the command line) is not part of this: a
    logging call counts as allowed. *)
Definition stays_in_build (builddir : string) (e : event) : bool :=
  match e with
  | BasicConfig _ _ | Log _ _ => true
  | Rmtree p => String.eqb p builddir
  | Mkdir p | Copy _ p | WriteFile p _ => String.prefix builddir p
  | CheckCall _ | Print _ => false
  end.

Definition is_mkdir (e : event) : bool :=
  match e with Mkdir _ => true | _ => false end.

(** The directory [generate_dir] makes for an entry of the walk. *)
Definition dest_of (projectdir : string) (entry : walk_entry) : string :=
  (projectdir ++ "/build/")
  ++ PyStr.replace (projectdir ++ "/content/") EmptyString (fst (fst entry)).

(** More projects. *)
Module Cases.

(** A project whose [config.yml] does not load. *)
Definition broken_config : Mini.project := {|
  Mini.dir := "p";
  Mini.content := Some (Tree [] ["a.md"]);
  Mini.texts := [("p/content/a.md", "# A")];
  Mini.templates := [("default.html", "<html>{{ content }}</html>")];
  Mini.existing := ["p/build/"];
  Mini.settings := Raise "YAMLError"
|}.

(** A project without content folder, built before. *)
Definition no_content : Mini.project := {|
  Mini.dir := "p";
  Mini.content := None;
  Mini.texts := [];
  Mini.templates := [("default.html", "<html>{{ content }}</html>")];
  Mini.existing := ["p/build/"];
  Mini.settings := Scenarios.plain_config
|}.

(** A project of assets only, two levels deep. *)
Definition assets : Mini.project := {|
  Mini.dir := "p";
  Mini.content :=
    Some (Tree [("img", Tree [("big", Tree [] ["x.png"])] ["logo.png"]);
                ("css", Tree [] [])]
            ["robots.txt"]);
  Mini.texts := [];
  Mini.templates := [];
  Mini.existing := [];
  Mini.settings := Scenarios.plain_config
|}.

(** A project without [default.html]. *)
Definition no_default : Mini.project := {|
  Mini.dir := "p";
  Mini.content := Some (Tree [] ["a.md"; "b.md"]);
  Mini.texts := [("p/content/a.md", "# A"); ("p/content/b.md", "# B")];
  Mini.templates := [("other.html", "<html>{{ content }}</html>")];
  Mini.existing := [];
  Mini.settings := Scenarios.plain_config
|}.

(** A project with one sync environment. *)
Definition synced : Mini.project := {|
  Mini.dir := "p";
  Mini.content := None;
  Mini.texts := [];
  Mini.templates := [];
  Mini.existing := [];
  Mini.settings :=
    Ok {| config_var := Some [("name", VStr "Ben"); ("year", VObj "2024")];
          config_sync := Some [("prod", [("dest", VStr "host:/srv/www")])] |}
|}.

(** [g.md] asks for the template [../config.yml].  That names no template
    of the template folder (jinja2 refuses a name with [..]), yet the path
    [p/templates/../config.yml] exists, as [config.yml] does in every
    project that runs. *)
Definition stray_template : Mini.project := {|
  Mini.dir := "p";
  Mini.content := Some (Tree [] ["g.md"; "h.md"]);
  Mini.texts :=
    [("p/content/g.md",
      "---" ++ Scenarios.nl ++ "template: ../config.yml" ++ Scenarios.nl
      ++ "---" ++ Scenarios.nl ++ "# G");
     ("p/content/h.md", "# H")];
  Mini.templates := [("default.html", "<html>{{ content }}</html>")];
  Mini.existing := ["p/config.yml"; "p/templates/../config.yml"];
  Mini.settings := Scenarios.plain_config
|}.

Definition sync_to (env : string) : namespace := {|
  loglevel := "INFO"; logfile := None; projectdir := "p";
  func := Some main_sync_cmd; environment := Some env
|}.

End Cases.

(** * Properties *)

(** ** Dicts *)

Lemma dict_get_set (k : string) (v : value) (d : dict) :
  dict_get k (dict_set k v d) = Some v.
Proof.
  induction d as [|[k' v'] d IH]; simpl.
  - now rewrite String.eqb_refl.
  - destruct (String.eqb k' k) eqn:E; simpl; now rewrite E.
Qed.

Lemma dict_set_twice (k : string) (a b : value) (d : dict) :
  dict_set k a (dict_set k b d) = dict_set k a d.
Proof.
  induction d as [|[k' v'] d IH]; simpl.
  - now rewrite String.eqb_refl.
  - destruct (String.eqb k' k) eqn:E; simpl; rewrite E; congruence.
Qed.

Lemma dict_mem_get (k : string) (d : dict) (v : value) :
  dict_get k d = Some v -> dict_mem k d = true.
Proof. unfold dict_mem. now intros ->. Qed.

(** ** The monad *)

Lemma bind_normal {A B : Type} (t : list event) (a : A) (f : A -> M B) :
  bind (t, Normal a) f = ((t ++ trace (f a))%list, ending (f a)).
Proof. unfold bind, trace, ending. now destruct (f a). Qed.

Lemma bind_abort {A B : Type} (t : list event) (o : outcome) (f : A -> M B) :
  bind (t, Abort o) f = (t, Abort o).
Proof. reflexivity. Qed.

Lemma bind_assoc {A B C : Type} (m : M A) (f : A -> M B) (g : B -> M C) :
  bind (bind m f) g = bind m (fun a => bind (f a) g).
Proof.
  destruct m as [t [a|o]]; simpl; [|reflexivity].
  destruct (f a) as [t1 [b|o]]; simpl; [|reflexivity].
  destruct (g b) as [t2 r]. now rewrite app_assoc.
Qed.

(** A loop that meets an aborting body stops there: what comes after it in
    the list is never looked at. *)
Lemma for_each_abort {A S : Type} (body : A -> S -> M S) (l1 l2 : list A)
  (a : A) (s s1 : S) (t1 t2 : list event) (o : outcome) :
  for_each body l1 s = (t1, Normal s1) ->
  body a s1 = (t2, Abort o) ->
  for_each body (l1 ++ a :: l2) s = ((t1 ++ t2)%list, Abort o).
Proof.
  revert s t1. induction l1 as [|x l1 IH]; intros s t1 H1 H2; simpl in *.
  - injection H1 as <- <-. now rewrite H2.
  - destruct (body x s) as [tx [sx|ox]] eqn:Ex; simpl in *; [|discriminate].
    destruct (for_each body l1 sx) as [tr r] eqn:Er.
    injection H1 as <- ->.
    rewrite (IH sx tr Er H2). now rewrite app_assoc.
Qed.

(** ** The title *)

Lemma first_heading_of_none (lines : list string) :
  (forall l, In l lines -> PyStr.startswith l "# " = false) ->
  first_heading_of lines = VNone.
Proof.
  induction lines as [|l lines IH]; intros H; simpl; [reflexivity|].
  rewrite (H l (or_introl eq_refl)). apply IH. intros l' Hl'.
  apply H. now right.
Qed.

Lemma set_title_key (fm : dict) (raw : string) (var : dict) (t : value) :
  dict_get "title" fm = Some t ->
  set_title fm raw var
  = ([Log DEBUG (MsgSettingTitle (get_first_heading raw));
      Log DEBUG (MsgOverwritingTitle t)],
     Normal (dict_set "title" t var)).
Proof.
  intros H. unfold set_title, dict_item.
  rewrite dict_get_set, (dict_mem_get _ _ _ H), H. simpl.
  now rewrite dict_set_twice.
Qed.

Lemma set_title_no_key (fm : dict) (raw : string) (var : dict) :
  dict_get "title" fm = None ->
  set_title fm raw var
  = ([Log DEBUG (MsgSettingTitle (get_first_heading raw))],
     Normal (dict_set "title" (get_first_heading raw) var)).
Proof.
  intros H. unfold set_title, dict_item, dict_mem.
  now rewrite dict_get_set, H.
Qed.

(** ** One markdown file *)

Section Markdown_file.

Variable w : World.
Variables projectdir root dest file : string.

Let file_path : string := PyStr.replace "//" "/" (root ++ "/" ++ file).
Let target : string :=
  dest ++ "/" ++ fst (PyStr.splitext file) ++ ".html".

(** Up to the two passes a markdown file only reads and logs; the passes
    then run on the [var] that [set_title] returns. *)
Lemma generate_file_markdown (var var' fm : dict) (content raw : string)
  (name : value) (tmpl : template w) (trp trc trt : list event) :
  PyStr.endswith file "md" = true ->
  parse_markdown_with_front_matter w file_path
  = (trp, Normal (fm, content, raw)) ->
  choose_template w projectdir file_path fm = (trc, Normal name) ->
  get_template w (projectdir ++ "/templates") name = Ok tmpl ->
  set_title fm raw var = (trt, Normal var') ->
  generate_file w projectdir root dest file var
  = bind ((trp ++ trc ++ trt)%list, Normal tt)
      (fun _ =>
         html <- render_page w file_path content tmpl var' ;;
         emit (WriteFile target html) ;;; ret var').
Proof.
  intros Hmd Hp Hc Hg Ht. unfold generate_file.
  rewrite Hmd. cbn [negb]. fold file_path target.
  rewrite Hp. cbn [bind]. rewrite Hc. cbn [bind].
  rewrite Hg. cbn [bind call ret]. rewrite Ht. cbn [bind].
  destruct (bind (render_page w file_path content tmpl var') _) as [t r].
  cbn [app]. now rewrite <- !app_assoc.
Qed.

End Markdown_file.

Lemma generate_file_prepared (w : World)
  (projectdir root dest file : string) (var var' fm : dict)
  (content raw : string) (tmpl : template w) (pre trt : list event) :
  let file_path := PyStr.replace "//" "/" (root ++ "/" ++ file) in
  PyStr.endswith file "md" = true ->
  prepared w projectdir file_path fm content raw tmpl pre ->
  set_title fm raw var = (trt, Normal var') ->
  generate_file w projectdir root dest file var
  = bind ((pre ++ trt)%list, Normal tt)
      (fun _ =>
         html <- render_page w file_path content tmpl var' ;;
         emit (WriteFile (dest ++ "/" ++ fst (PyStr.splitext file) ++ ".html")
                 html) ;;;
         ret var').
Proof.
  intros file_path Hmd (trp & trc & name & Hp & Hc & Hg & ->) Ht.
  rewrite (generate_file_markdown w projectdir root dest file var var' fm
             content raw name tmpl trp trc trt Hmd Hp Hc Hg Ht).
  now rewrite <- app_assoc.
Qed.

(** ** Claims about the title *)

(** C3. When the front matter of a document has a [title] key, the [title]
    entry of the variables both passes are run with is the value of that
    key, whatever the text of the document is. *)
Theorem front_matter_title_wins (w : World)
  (projectdir root dest file : string) (var fm : dict)
  (content raw : string) (tmpl : template w) (pre : list event) (t : value) :
  let file_path := PyStr.replace "//" "/" (root ++ "/" ++ file) in
  let var' := dict_set "title" t var in
  PyStr.endswith file "md" = true ->
  prepared w projectdir file_path fm content raw tmpl pre ->
  dict_get "title" fm = Some t ->
  dict_get "title" var' = Some t
  /\ generate_file w projectdir root dest file var
     = bind ((pre ++ [Log DEBUG (MsgSettingTitle (get_first_heading raw));
                      Log DEBUG (MsgOverwritingTitle t)])%list, Normal tt)
         (fun _ =>
            html <- render_page w file_path content tmpl var' ;;
            emit (WriteFile
                    (dest ++ "/" ++ fst (PyStr.splitext file) ++ ".html")
                    html) ;;;
            ret var').
Proof.
  intros file_path var' Hmd Hprep Ht. split.
  - apply dict_get_set.
  - apply generate_file_prepared with (fm := fm) (raw := raw); trivial.
    now apply set_title_key.
Qed.

Lemma front_matter_title_wins_witness :
  dict_get "title" (dict_set "title" (VStr "Hello") [("name", VStr "Ben")])
  = Some (VStr "Hello")
  /\ generate_file (Mini.world Scenarios.site) "p" "p/content/" "p/build/"
       "a.md" [("name", VStr "Ben")]
     = ([Log DEBUG MsgTemplateNotSet;
         Log DEBUG (MsgSettingTitle (VStr "World"));
         Log DEBUG (MsgOverwritingTitle (VStr "Hello"));
         Log DEBUG (MsgActuallyRendering "p/content/a.md");
         WriteFile "p/build//a.html"
           ("<html>Hello:<h1>World</h1>" ++ Scenarios.nl
            ++ "<p>Text Ben</p></html>")],
        Normal [("name", VStr "Ben"); ("title", VStr "Hello")]).
Proof.
  refine (front_matter_title_wins (Mini.world Scenarios.site)
            "p" "p/content/" "p/build/" "a.md" [("name", VStr "Ben")]
            [("title", VStr "Hello")]
            ("<h1>World</h1>" ++ Scenarios.nl ++ "<p>Text {{ var.name }}</p>")
            ("---" ++ Scenarios.nl ++ "title: Hello" ++ Scenarios.nl ++ "---"
             ++ Scenarios.nl ++ "# World" ++ Scenarios.nl
             ++ "Text {{ var.name }}")
            "<html>{{ var.title }}:{{ content }}</html>"
            [Log DEBUG MsgTemplateNotSet] (VStr "Hello") _ _ _).
  - reflexivity.
  - exists [], [Log DEBUG MsgTemplateNotSet], (VStr "default.html").
    repeat split; reflexivity.
  - reflexivity.
Defined.

(** C10. When the front matter has no [title] key and no line of the text
    starts with ["# "], the [title] entry both passes are run with is
    [None], not the empty text. *)
Theorem title_is_None_without_key_and_heading (w : World)
  (projectdir root dest file : string) (var fm : dict)
  (content raw : string) (tmpl : template w) (pre : list event) :
  let file_path := PyStr.replace "//" "/" (root ++ "/" ++ file) in
  let var' := dict_set "title" VNone var in
  PyStr.endswith file "md" = true ->
  prepared w projectdir file_path fm content raw tmpl pre ->
  dict_get "title" fm = None ->
  (forall l, In l (PyStr.split_lines raw) -> PyStr.startswith l "# " = false) ->
  dict_get "title" var' = Some VNone
  /\ dict_get "title" var' <> Some (VStr EmptyString)
  /\ generate_file w projectdir root dest file var
     = bind ((pre ++ [Log DEBUG (MsgSettingTitle VNone)])%list, Normal tt)
         (fun _ =>
            html <- render_page w file_path content tmpl var' ;;
            emit (WriteFile
                    (dest ++ "/" ++ fst (PyStr.splitext file) ++ ".html")
                    html) ;;;
            ret var').
Proof.
  intros file_path var' Hmd Hprep Hfm Hlines.
  assert (Hh : get_first_heading raw = VNone)
    by now apply first_heading_of_none.
  assert (Hget : dict_get "title" var' = Some VNone) by apply dict_get_set.
  repeat split; trivial.
  - rewrite Hget. discriminate.
  - apply generate_file_prepared with (fm := fm) (raw := raw); trivial.
    rewrite (set_title_no_key fm raw var Hfm), Hh. reflexivity.
Qed.

Lemma title_is_None_without_key_and_heading_witness :
  generate_file (Mini.world Scenarios.blog) "p" "p/content/" "p/build/"
    "d.md" [("name", VStr "Ben")]
  = ([Log DEBUG MsgTemplateNotSet; Log DEBUG (MsgSettingTitle VNone);
      Log DEBUG (MsgActuallyRendering "p/content/d.md");
      WriteFile "p/build//d.html" "<html><p>just text</p></html>"],
     Normal [("name", VStr "Ben"); ("title", VNone)]).
Proof.
  refine (proj2 (proj2
    (title_is_None_without_key_and_heading (Mini.world Scenarios.blog)
       "p" "p/content/" "p/build/" "d.md" [("name", VStr "Ben")]
       [] "<p>just text</p>" "just text" "<html>{{ content }}</html>"
       [Log DEBUG MsgTemplateNotSet] _ _ _ _))).
  - reflexivity.
  - exists [], [Log DEBUG MsgTemplateNotSet], (VStr "default.html").
    repeat split; reflexivity.
  - reflexivity.
  - simpl. intros l [<-|[]]. reflexivity.
Defined.

(** What [set_title] returns does not depend on the [title] entry it
    finds. *)
Lemma set_title_fresh (fm : dict) (raw : string) (var : dict) (t1 t2 : value) :
  set_title fm raw (dict_set "title" t1 var)
  = set_title fm raw (dict_set "title" t2 var).
Proof.
  destruct (dict_get "title" fm) as [t|] eqn:E.
  - now rewrite !(set_title_key _ _ _ _ E), !dict_set_twice.
  - now rewrite !(set_title_no_key _ _ _ E), !dict_set_twice.
Qed.

Lemma generate_file_fresh_title (w : World)
  (projectdir root dest file : string) (var : dict) (t1 t2 : value) :
  PyStr.endswith file "md" = true ->
  generate_file w projectdir root dest file (dict_set "title" t1 var)
  = generate_file w projectdir root dest file (dict_set "title" t2 var).
Proof.
  intros Hmd. unfold generate_file. rewrite Hmd. cbn [negb].
  destruct (parse_markdown_with_front_matter w _)
    as [trp [[[fm content] raw]|o]]; [|reflexivity].
  cbn [bind]. destruct (choose_template w _ _ _) as [trc [name|o]];
    [|reflexivity].
  cbn [bind]. destruct (call (get_template w _ _)) as [trg [tmpl|o]];
    [|reflexivity].
  cbn [bind]. now rewrite (set_title_fresh fm raw var t1 t2).
Qed.

(** The variables a markdown file leaves behind are those it found, with
    the [title] entry assigned. *)
Lemma generate_file_leaves_title (w : World)
  (projectdir root dest file : string) (var var1 : dict) (tr : list event) :
  PyStr.endswith file "md" = true ->
  generate_file w projectdir root dest file var = (tr, Normal var1) ->
  exists t, var1 = dict_set "title" t var.
Proof.
  intros Hmd. unfold generate_file. rewrite Hmd. cbn [negb].
  destruct (parse_markdown_with_front_matter w _)
    as [trp [[[fm content] raw]|o]]; [|discriminate].
  cbn [bind]. destruct (choose_template w _ _ _) as [trc [name|o]];
    [|discriminate].
  cbn [bind]. destruct (call (get_template w _ _)) as [trg [tmpl|o]];
    [|discriminate].
  cbn [bind].
  assert (Hs : exists t trt,
             set_title fm raw var = (trt, Normal (dict_set "title" t var))).
  { destruct (dict_get "title" fm) as [t|] eqn:E.
    - exists t. eexists. now apply set_title_key.
    - eexists. eexists. now apply set_title_no_key. }
  destruct Hs as (t & trt & ->). cbn [bind].
  destruct (render_page w _ _ _ _) as [trr [html|o]]; cbn; [|discriminate].
  intros H. exists t. congruence.
Qed.

(** C8. Of two markdown documents processed one after the other, the later
    one is processed exactly as it would be had the earlier one left any
    other title behind: its [title] entry is assigned anew from the
    document itself before the two passes. *)
Theorem title_not_carried_over (w : World) (projectdir : string)
  (root1 dest1 file1 root2 dest2 file2 : string) (var var1 : dict)
  (tr : list event) :
  PyStr.endswith file1 "md" = true ->
  PyStr.endswith file2 "md" = true ->
  generate_file w projectdir root1 dest1 file1 var = (tr, Normal var1) ->
  exists t1,
    var1 = dict_set "title" t1 var
    /\ forall t,
        generate_file w projectdir root2 dest2 file2 var1
        = generate_file w projectdir root2 dest2 file2
            (dict_set "title" t var).
Proof.
  intros H1 H2 Hrun.
  destruct (generate_file_leaves_title _ _ _ _ _ _ _ _ H1 Hrun) as [t1 ->].
  exists t1. split; [reflexivity|]. intros t.
  now apply generate_file_fresh_title.
Qed.

Lemma title_not_carried_over_witness :
  exists t1,
    [("name", VStr "Ben"); ("title", VStr "Only Heading")]
    = dict_set "title" t1 [("name", VStr "Ben")]
    /\ forall t,
        generate_file (Mini.world Scenarios.blog) "p" "p/content/" "p/build/"
          "d.md" [("name", VStr "Ben"); ("title", VStr "Only Heading")]
        = generate_file (Mini.world Scenarios.blog) "p" "p/content/"
            "p/build/" "d.md" (dict_set "title" t [("name", VStr "Ben")]).
Proof.
  refine (title_not_carried_over (Mini.world Scenarios.blog) "p"
            "p/content/" "p/build/" "c.md" "p/content/" "p/build/" "d.md"
            [("name", VStr "Ben")]
            [("name", VStr "Ben"); ("title", VStr "Only Heading")]
            [Log WARNING
               (MsgInvalidTemplate (VStr "special.html") "p/content/c.md"
                  "default.html");
             Log DEBUG (MsgSettingTitle (VStr "Only Heading"));
             Log DEBUG (MsgActuallyRendering "p/content/c.md");
             WriteFile "p/build//c.html"
               ("<html><h1>Only Heading</h1>" ++ Scenarios.nl
                ++ "<p>Body</p></html>")]
            _ _ _); vm_compute; reflexivity.
Defined.

(** The first line that starts with ["# "] gives the heading. *)
Lemma first_heading_of_first (before after : list string) (l : string) :
  (forall l', In l' before -> PyStr.startswith l' "# " = false) ->
  PyStr.startswith l "# " = true ->
  first_heading_of (before ++ l :: after)
  = VStr (PyStr.strip (PyStr.replace "# " EmptyString l)).
Proof.
  induction before as [|b before IH]; intros Hb Hl; simpl.
  - now rewrite Hl.
  - rewrite (Hb b (or_introl eq_refl)). apply IH; trivial.
    intros l' Hl'. apply Hb. now right.
Qed.

(** C4, at the text [# C# is sharp]: there is no [title] key and the first
    line is a heading line; stripping the leading marker and trimming
    gives [C# is sharp], but [get_first_heading] removes every ["# "] of
    the line and the title becomes [Cis sharp]. *)
Theorem heading_loses_inner_markers :
  let raw := "# C# is sharp" in
  PyStr.split_lines raw = [raw]
  /\ PyStr.startswith raw "# " = true
  /\ PyStr.strip (PyStr.drop 2 raw) = "C# is sharp"
  /\ get_first_heading raw = VStr "Cis sharp"
  /\ ending (set_title [] raw []) = Normal [("title", VStr "Cis sharp")].
Proof. repeat split; reflexivity. Qed.

(** ** Claims about the walk *)

(** Every directory of the walk is made before anything of its files is
    done: [generate_dir] starts with the [mkdir]. *)
Lemma generate_dir_mkdir_first (w : World) (projectdir builddir : string)
  (root : string) (dirs files : list string) (var : dict) :
  exists rest,
    trace (generate_dir w projectdir builddir (root, dirs, files) var)
    = Mkdir (builddir
             ++ PyStr.replace (projectdir ++ "/content/") EmptyString root)
        :: rest.
Proof.
  unfold generate_dir, emit. cbn [bind].
  destruct (for_each _ files var) as [t r]. now exists t.
Qed.

(** A file whose name does not end in [md] is copied, and nothing else
    happens for it. *)
Lemma generate_file_copy (w : World) (projectdir root dest file : string)
  (var : dict) :
  PyStr.endswith file "md" = false ->
  generate_file w projectdir root dest file var
  = ([Copy (root ++ "/" ++ file) (dest ++ "/" ++ file)], Normal var).
Proof. intros H. unfold generate_file. now rewrite H. Qed.

(** C5, at a file named [run.cmd]: the name does not end in [.md], yet it
    ends in [md], so the file is not copied: it is parsed as markdown and
    written as [run.html]; [logo.png] next to it is copied. *)
Theorem name_ending_in_md_without_dot_is_rendered :
  PyStr.endswith "run.cmd" ".md" = false
  /\ In "run.cmd" ["a.md"; "logo.png"; "run.cmd"]
  /\ main_generate (Mini.world Scenarios.site) (Mini.generate Scenarios.site)
     = ([BasicConfig "INFO" None; Log DEBUG MsgRemovingBuild;
         Rmtree "p/build/"; Mkdir "p/build/"; Log DEBUG MsgTemplateNotSet;
         Log DEBUG (MsgSettingTitle (VStr "World"));
         Log DEBUG (MsgOverwritingTitle (VStr "Hello"));
         Log DEBUG (MsgActuallyRendering "p/content/a.md");
         WriteFile "p/build//a.html"
           ("<html>Hello:<h1>World</h1>" ++ Scenarios.nl
            ++ "<p>Text Ben</p></html>");
         Copy "p/content//logo.png" "p/build//logo.png";
         Log DEBUG MsgTemplateNotSet; Log DEBUG (MsgSettingTitle VNone);
         Log DEBUG (MsgActuallyRendering "p/content/run.cmd");
         WriteFile "p/build//run.html" "<html>None:<p>echo hi</p></html>"],
        Normal tt)
  /\ filter is_copy
       (trace (main_generate (Mini.world Scenarios.site)
                 (Mini.generate Scenarios.site)))
     = [Copy "p/content//logo.png" "p/build//logo.png"].
Proof. repeat split; try (vm_compute; reflexivity). simpl. tauto. Qed.

(** C7, at project [a] whose content folder holds the folder
    [a/content/x]: the walk visits [a/content/a/content/x], and the
    directory made for it is [a/build/x], not [a/build/a/content/x]; its
    file goes to [a/build/x] as well. *)
Theorem nested_content_path_is_flattened :
  map (fun e => fst (fst e)) (walk_content (Mini.world Scenarios.nested) "a")
  = ["a/content/"; "a/content/a"; "a/content/a/content";
     "a/content/a/content/x"]
  /\ main_generate (Mini.world Scenarios.nested)
       (Mini.generate Scenarios.nested)
     = ([BasicConfig "INFO" None; Mkdir "a/build/"; Mkdir "a/build/a";
         Mkdir "a/build/a/content"; Mkdir "a/build/x";
         Copy "a/content/a/content/x/f.txt" "a/build/x/f.txt"],
        Normal tt)
  /\ ~ In (Mkdir "a/build/a/content/x")
         (trace (main_generate (Mini.world Scenarios.nested)
                   (Mini.generate Scenarios.nested))).
Proof.
  repeat split; try (vm_compute; reflexivity).
  vm_compute. intros H.
  repeat (destruct H as [H|H]; [discriminate H|]). exact H.
Qed.

(** ** Claims about the template and the two passes *)

Lemma render_page_content_error (w : World) (file_path content : string)
  (tmpl ct : template w) (var : dict) (exn : string) :
  from_string w content = Ok ct ->
  render w ct [("var", BDict var)] = Raise exn ->
  render_page w file_path content tmpl var
  = ([Log CRITICAL MsgMarkdownFailed], Abort (SysExit 1)).
Proof.
  intros H1 H2. unfold render_page. rewrite H1. cbn [call ret bind].
  now rewrite H2.
Qed.

Lemma render_page_content_ok (w : World) (file_path content c1 : string)
  (tmpl ct : template w) (var : dict) :
  from_string w content = Ok ct ->
  render w ct [("var", BDict var)] = Ok c1 ->
  render_page w file_path content tmpl var
  = bind ([Log DEBUG (MsgActuallyRendering file_path)], Normal tt)
      (fun _ =>
         try_except
           (render w tmpl [("content", BStr c1); ("var", BDict var)])
           (logging CRITICAL (MsgRenderingFailed file_path) ;;; sys_exit 1)).
Proof.
  intros H1 H2. unfold render_page. rewrite H1. cbn [call ret bind].
  rewrite H2. cbn [try_except ret bind logging emit].
  now destruct (try_except _ _) as [t r].
Qed.

Lemma render_page_page_error (w : World) (file_path content c1 : string)
  (tmpl ct : template w) (var : dict) (exn : string) :
  from_string w content = Ok ct ->
  render w ct [("var", BDict var)] = Ok c1 ->
  render w tmpl [("content", BStr c1); ("var", BDict var)] = Raise exn ->
  render_page w file_path content tmpl var
  = ([Log DEBUG (MsgActuallyRendering file_path);
      Log CRITICAL (MsgRenderingFailed file_path)], Abort (SysExit 1)).
Proof.
  intros H1 H2 H3.
  rewrite (render_page_content_ok _ _ _ _ _ _ _ H1 H2). now rewrite H3.
Qed.

Lemma render_page_ok (w : World) (file_path content c1 html : string)
  (tmpl ct : template w) (var : dict) :
  from_string w content = Ok ct ->
  render w ct [("var", BDict var)] = Ok c1 ->
  render w tmpl [("content", BStr c1); ("var", BDict var)] = Ok html ->
  render_page w file_path content tmpl var
  = ([Log DEBUG (MsgActuallyRendering file_path)], Normal html).
Proof.
  intros H1 H2 H3.
  rewrite (render_page_content_ok _ _ _ _ _ _ _ H1 H2). now rewrite H3.
Qed.

Lemma choose_template_missing (w : World) (projectdir file_path : string)
  (fm : dict) (name : value) :
  dict_get "template" fm = Some name ->
  path_exists w (projectdir ++ "/templates/" ++ py_str name) = false ->
  choose_template w projectdir file_path fm
  = ([Log WARNING (MsgInvalidTemplate name file_path "default.html")],
     Normal (VStr "default.html")).
Proof.
  intros Hk He. unfold choose_template, dict_item.
  rewrite (dict_mem_get _ _ _ Hk), Hk. cbn [negb bind ret].
  now rewrite He.
Qed.

(** The fallback of lines 98-100.  A document whose front matter names a
    template for which [os.path.exists] of the joined path is false gets a
    record of level WARNING and is rendered with [default.html]: where that
    template loads and the two passes succeed, the page is written and the
    file loop goes on with the next file. *)
Lemma missing_template_falls_back (w : World)
  (projectdir root dest file : string) (var var' fm : dict)
  (content raw c1 html : string) (name : value) (tmpl ct : template w)
  (trp trt : list event) :
  let file_path := PyStr.replace "//" "/" (root ++ "/" ++ file) in
  let warning :=
    Log WARNING (MsgInvalidTemplate name file_path "default.html") in
  let events :=
    (trp ++ [warning] ++ trt
     ++ [Log DEBUG (MsgActuallyRendering file_path);
         WriteFile (dest ++ "/" ++ fst (PyStr.splitext file) ++ ".html")
           html])%list in
  PyStr.endswith file "md" = true ->
  parse_markdown_with_front_matter w file_path
  = (trp, Normal (fm, content, raw)) ->
  dict_get "template" fm = Some name ->
  path_exists w (projectdir ++ "/templates/" ++ py_str name) = false ->
  get_template w (projectdir ++ "/templates") (VStr "default.html") = Ok tmpl ->
  set_title fm raw var = (trt, Normal var') ->
  from_string w content = Ok ct ->
  render w ct [("var", BDict var')] = Ok c1 ->
  render w tmpl [("content", BStr c1); ("var", BDict var')] = Ok html ->
  choose_template w projectdir file_path fm
  = ([warning], Normal (VStr "default.html"))
  /\ generate_file w projectdir root dest file var = (events, Normal var')
  /\ forall rest,
      for_each (generate_file w projectdir root dest) (file :: rest) var
      = bind (events, Normal var')
          (for_each (generate_file w projectdir root dest) rest).
Proof.
  intros file_path warning events Hmd Hp Hk He Hg Ht Hf Hc Hr.
  pose proof (choose_template_missing w projectdir file_path fm name Hk He)
    as Hch.
  assert (Hfile : generate_file w projectdir root dest file var
                  = (events, Normal var')).
  { rewrite (generate_file_markdown w projectdir root dest file var var' fm
               content raw (VStr "default.html") tmpl trp [warning] trt
               Hmd Hp Hch Hg Ht).
    fold file_path.
    rewrite (render_page_ok w file_path content c1 html tmpl ct var' Hf Hc Hr).
    cbn. unfold events. now rewrite <- !app_assoc. }
  split; [exact Hch|]. split; [exact Hfile|].
  intros rest. cbn [for_each]. now rewrite Hfile.
Qed.

Lemma missing_template_falls_back_witness :
  let warning :=
    Log WARNING
      (MsgInvalidTemplate (VStr "special.html") "p/content/c.md"
         "default.html") in
  let events :=
    [warning; Log DEBUG (MsgSettingTitle (VStr "Only Heading"));
     Log DEBUG (MsgActuallyRendering "p/content/c.md");
     WriteFile "p/build//c.html"
       ("<html><h1>Only Heading</h1>" ++ Scenarios.nl ++ "<p>Body</p></html>")]
  in
  let var' := [("name", VStr "Ben"); ("title", VStr "Only Heading")] in
  choose_template (Mini.world Scenarios.blog) "p" "p/content/c.md"
    [("template", VStr "special.html")]
  = ([warning], Normal (VStr "default.html"))
  /\ generate_file (Mini.world Scenarios.blog) "p" "p/content/" "p/build/"
       "c.md" [("name", VStr "Ben")]
     = (events, Normal var')
  /\ forall rest,
      for_each (generate_file (Mini.world Scenarios.blog) "p" "p/content/"
                  "p/build/") ("c.md" :: rest) [("name", VStr "Ben")]
      = bind (events, Normal var')
          (for_each (generate_file (Mini.world Scenarios.blog) "p"
                       "p/content/" "p/build/") rest).
Proof.
  refine (missing_template_falls_back (Mini.world Scenarios.blog)
            "p" "p/content/" "p/build/" "c.md" [("name", VStr "Ben")]
            [("name", VStr "Ben"); ("title", VStr "Only Heading")]
            [("template", VStr "special.html")]
            ("<h1>Only Heading</h1>" ++ Scenarios.nl ++ "<p>Body</p>")
            ("---" ++ Scenarios.nl ++ "template: special.html" ++ Scenarios.nl
             ++ "---" ++ Scenarios.nl ++ "# Only Heading" ++ Scenarios.nl
             ++ "Body")
            ("<h1>Only Heading</h1>" ++ Scenarios.nl ++ "<p>Body</p>")
            ("<html><h1>Only Heading</h1>" ++ Scenarios.nl
             ++ "<p>Body</p></html>")
            (VStr "special.html") "<html>{{ content }}</html>"
            ("<h1>Only Heading</h1>" ++ Scenarios.nl ++ "<p>Body</p>")
            [] [Log DEBUG (MsgSettingTitle (VStr "Only Heading"))]
            _ _ _ _ _ _ _ _ _); vm_compute; reflexivity.
Defined.

(** C1, at a document whose front matter says [template: ../config.yml]:
    the name is no template of the template folder, but the guard of line
    98 asks [os.path.exists] of the joined path, which exists.  No
    warning is logged and [default.html] is not used: the script logs
    that it uses the template of the source file, [get_template] raises
    outside any [try], and the run ends there with status 1; [h.md] after
    it is not processed. *)
Theorem template_path_outside_root_aborts :
  Mini.lookup "../config.yml" (Mini.templates Cases.stray_template) = None
  /\ path_exists (Mini.world Cases.stray_template)
       ("p" ++ "/templates/" ++ py_str (VStr "../config.yml")) = true
  /\ choose_template (Mini.world Cases.stray_template) "p" "p/content/g.md"
       [("template", VStr "../config.yml")]
     = ([Log DEBUG MsgUsingTemplate], Normal (VStr "../config.yml"))
  /\ generate_file (Mini.world Cases.stray_template) "p" "p/content/"
       "p/build/" "g.md" [("name", VStr "Ben")]
     = ([Log DEBUG MsgUsingTemplate], Abort (Uncaught "TemplateNotFound"))
  /\ main_generate (Mini.world Cases.stray_template)
       (Mini.generate Cases.stray_template)
     = ([BasicConfig "INFO" None; Mkdir "p/build/"; Log DEBUG MsgUsingTemplate],
        Abort (Uncaught "TemplateNotFound"))
  /\ exit_status
       (ending (main_generate (Mini.world Cases.stray_template)
                  (Mini.generate Cases.stray_template))) = 1%Z.
Proof. repeat split; vm_compute; reflexivity. Qed.

(** C6. The page pass is run on what the content pass returned: once the
    content pass has returned [c1] for the HTML body, the page template is
    rendered with [content] bound to [c1]; when the content pass fails
    the page template is never rendered. *)
Theorem content_pass_feeds_page_pass (w : World)
  (projectdir root dest file : string) (var var' fm : dict)
  (content raw : string) (tmpl ct : template w) (pre trt : list event) :
  let file_path := PyStr.replace "//" "/" (root ++ "/" ++ file) in
  let target := dest ++ "/" ++ fst (PyStr.splitext file) ++ ".html" in
  PyStr.endswith file "md" = true ->
  prepared w projectdir file_path fm content raw tmpl pre ->
  set_title fm raw var = (trt, Normal var') ->
  from_string w content = Ok ct ->
  (forall c1,
      render w ct [("var", BDict var')] = Ok c1 ->
      generate_file w projectdir root dest file var
      = bind ((pre ++ trt ++ [Log DEBUG (MsgActuallyRendering file_path)])%list,
              Normal tt)
          (fun _ =>
             html <- try_except
                       (render w tmpl
                          [("content", BStr c1); ("var", BDict var')])
                       (logging CRITICAL (MsgRenderingFailed file_path) ;;;
                        sys_exit 1) ;;
             emit (WriteFile target html) ;;; ret var'))
  /\ (forall exn,
         render w ct [("var", BDict var')] = Raise exn ->
         generate_file w projectdir root dest file var
         = ((pre ++ trt ++ [Log CRITICAL MsgMarkdownFailed])%list,
            Abort (SysExit 1))).
Proof.
  intros file_path target Hmd Hprep Ht Hf.
  pose proof (generate_file_prepared w projectdir root dest file var var' fm
                content raw tmpl pre trt Hmd Hprep Ht) as Hgen.
  fold file_path target in Hgen. split.
  - intros c1 Hc. rewrite Hgen.
    rewrite (render_page_content_ok w file_path content c1 tmpl ct var' Hf Hc).
    cbn [bind]. destruct (try_except _ _) as [t [html|o]]; cbn;
      now rewrite <- ?app_assoc.
  - intros exn Hc. rewrite Hgen.
    rewrite (render_page_content_error w file_path content tmpl ct var' exn
               Hf Hc).
    cbn. now rewrite <- app_assoc.
Qed.

Lemma content_pass_feeds_page_pass_witness :
  generate_file (Mini.world Scenarios.site) "p" "p/content/" "p/build/"
    "a.md" [("name", VStr "Ben")]
  = ([Log DEBUG MsgTemplateNotSet;
      Log DEBUG (MsgSettingTitle (VStr "World"));
      Log DEBUG (MsgOverwritingTitle (VStr "Hello"));
      Log DEBUG (MsgActuallyRendering "p/content/a.md");
      WriteFile "p/build//a.html"
        ("<html>Hello:<h1>World</h1>" ++ Scenarios.nl
         ++ "<p>Text Ben</p></html>")],
     Normal [("name", VStr "Ben"); ("title", VStr "Hello")]).
Proof.
  refine (proj1
    (content_pass_feeds_page_pass (Mini.world Scenarios.site)
       "p" "p/content/" "p/build/" "a.md" [("name", VStr "Ben")]
       [("name", VStr "Ben"); ("title", VStr "Hello")]
       [("title", VStr "Hello")]
       ("<h1>World</h1>" ++ Scenarios.nl ++ "<p>Text {{ var.name }}</p>")
       ("---" ++ Scenarios.nl ++ "title: Hello" ++ Scenarios.nl ++ "---"
        ++ Scenarios.nl ++ "# World" ++ Scenarios.nl ++ "Text {{ var.name }}")
       "<html>{{ var.title }}:{{ content }}</html>"
       ("<h1>World</h1>" ++ Scenarios.nl ++ "<p>Text {{ var.name }}</p>")
       [Log DEBUG MsgTemplateNotSet]
       [Log DEBUG (MsgSettingTitle (VStr "World"));
        Log DEBUG (MsgOverwritingTitle (VStr "Hello"))]
       _ _ _ _)
    ("<h1>World</h1>" ++ Scenarios.nl ++ "<p>Text Ben</p>") _).
  - reflexivity.
  - exists [], [Log DEBUG MsgTemplateNotSet], (VStr "default.html").
    repeat split; reflexivity.
  - reflexivity.
  - reflexivity.
  - reflexivity.
Defined.

(** ** Fatal errors *)

(** A file that aborts ends the whole run where it stands: the files after
    it in its directory and the directories after that directory leave no
    trace. *)
Lemma main_generate_abort (w : World) (args : namespace) (cfg : config)
  (before after : list walk_entry) (root : string)
  (dirs files1 files2 : list string) (file : string)
  (var0 var1 : dict) (tr0 tr1 trf : list event) (o : outcome) :
  let builddir := projectdir args ++ "/build/" in
  let dest :=
    builddir
    ++ PyStr.replace (projectdir args ++ "/content/") EmptyString root in
  safe_load w (projectdir args ++ "/config.yml") = Ok cfg ->
  walk_content w (projectdir args)
  = (before ++ (root, dirs, files1 ++ file :: files2) :: after)%list ->
  for_each (generate_dir w (projectdir args) builddir) before (initial_var cfg)
  = (tr0, Normal var0) ->
  for_each (generate_file w (projectdir args) root dest) files1 var0
  = (tr1, Normal var1) ->
  generate_file w (projectdir args) root dest file var1 = (trf, Abort o) ->
  main_generate w args
  = ((BasicConfig (loglevel args) (logfile args) :: removal w builddir
      ++ tr0 ++ Mkdir dest :: tr1 ++ trf)%list,
     Abort o).
Proof.
  intros builddir dest Hcfg Hwalk Hbefore Hfiles Hfile.
  assert (Hdir : generate_dir w (projectdir args) builddir
                   (root, dirs, (files1 ++ file :: files2)%list) var0
                 = ((Mkdir dest :: tr1 ++ trf)%list, Abort o)).
  { unfold generate_dir. fold builddir dest.
    now rewrite (for_each_abort _ files1 files2 file var0 var1 tr1 trf o
                   Hfiles Hfile). }
  unfold main_generate, set_logging, get_config. rewrite Hcfg, Hwalk.
  fold builddir. cbn [call ret emit bind].
  match goal with
  | |- context [for_each ?body ?l ?s] =>
      replace (for_each body l s)
        with ((tr0 ++ Mkdir dest :: tr1 ++ trf)%list, @Abort dict o)
        by (symmetry; now apply for_each_abort with (s1 := var0))
  end.
  unfold removal. destruct (path_exists w builddir); reflexivity.
Qed.

Lemma render_page_fails (w : World) (file_path content : string)
  (tmpl : template w) (var : dict) (failure : list event) (o : outcome) :
  pass_failure w file_path content tmpl var failure o ->
  render_page w file_path content tmpl var = (failure, Abort o).
Proof.
  intros [exn H|ct exn H1 H2|ct c1 exn H1 H2 H3].
  - unfold render_page. now rewrite H.
  - now apply render_page_content_error with (ct := ct) (exn := exn).
  - now apply render_page_page_error with (ct := ct) (c1 := c1) (exn := exn).
Qed.

Lemma pass_failure_status (w : World) (file_path content : string)
  (tmpl : template w) (var : dict) (failure : list event) (o : outcome) :
  pass_failure w file_path content tmpl var failure o ->
  exit_status (@Abort unit o) = 1%Z.
Proof. now intros [exn H|ct exn H1 H2|ct c1 exn H1 H2 H3]. Qed.

(** C2. When a pass of a document fails, be it the content pass or the page
    pass, the run ends there with status 1: its events are those up to the
    failing document followed by those of the failure (for a pass that
    raises, the record of level CRITICAL); the files and directories after
    the document are not processed. *)
Theorem render_error_ends_run (w : World) (args : namespace) (cfg : config)
  (before after : list walk_entry) (root : string)
  (dirs files1 files2 : list string) (file : string)
  (var0 var1 var2 fm : dict) (content raw : string) (tmpl : template w)
  (tr0 tr1 pre trt failure : list event) (o : outcome) :
  let builddir := projectdir args ++ "/build/" in
  let dest :=
    builddir
    ++ PyStr.replace (projectdir args ++ "/content/") EmptyString root in
  let file_path := PyStr.replace "//" "/" (root ++ "/" ++ file) in
  let so_far :=
    (BasicConfig (loglevel args) (logfile args) :: removal w builddir
     ++ tr0 ++ Mkdir dest :: tr1 ++ pre ++ trt)%list in
  safe_load w (projectdir args ++ "/config.yml") = Ok cfg ->
  walk_content w (projectdir args)
  = (before ++ (root, dirs, files1 ++ file :: files2) :: after)%list ->
  for_each (generate_dir w (projectdir args) builddir) before (initial_var cfg)
  = (tr0, Normal var0) ->
  for_each (generate_file w (projectdir args) root dest) files1 var0
  = (tr1, Normal var1) ->
  PyStr.endswith file "md" = true ->
  prepared w (projectdir args) file_path fm content raw tmpl pre ->
  set_title fm raw var1 = (trt, Normal var2) ->
  pass_failure w file_path content tmpl var2 failure o ->
  main_generate w args = ((so_far ++ failure)%list, Abort o)
  /\ exit_status (ending (main_generate w args)) = 1%Z
  /\ exit_status (ending (main_generate w args)) <> 0%Z.
Proof.
  intros builddir dest file_path so_far Hcfg Hwalk Hbefore Hfiles Hmd Hprep
    Ht Hfail.
  assert (Hdoc : generate_file w (projectdir args) root dest file var1
                 = ((pre ++ trt ++ failure)%list, Abort o)).
  { rewrite (generate_file_prepared w (projectdir args) root dest file var1
               var2 fm content raw tmpl pre trt Hmd Hprep Ht).
    fold file_path. rewrite (render_page_fails _ _ _ _ _ _ _ Hfail).
    cbn. now rewrite <- app_assoc. }
  assert (Heq : main_generate w args = ((so_far ++ failure)%list, Abort o)).
  { rewrite (main_generate_abort w args cfg before after root dirs files1
               files2 file var0 var1 tr0 tr1 _ _ Hcfg Hwalk Hbefore Hfiles
               Hdoc).
    f_equal. unfold so_far.
    repeat (rewrite <- app_assoc || rewrite <- app_comm_cons).
    reflexivity. }
  assert (Hst : exit_status (ending (main_generate w args)) = 1%Z).
  { rewrite Heq. cbn [ending snd].
    exact (pass_failure_status _ _ _ _ _ _ _ Hfail). }
  split; [exact Heq|]. split; [exact Hst|]. rewrite Hst. discriminate.
Qed.

Lemma render_error_ends_run_witness :
  main_generate (Mini.world Scenarios.blog) (Mini.generate Scenarios.blog)
  = ([BasicConfig "INFO" None; Mkdir "p/build/";
      Log WARNING
        (MsgInvalidTemplate (VStr "special.html") "p/content/c.md"
           "default.html");
      Log DEBUG (MsgSettingTitle (VStr "Only Heading"));
      Log DEBUG (MsgActuallyRendering "p/content/c.md");
      WriteFile "p/build//c.html"
        ("<html><h1>Only Heading</h1>" ++ Scenarios.nl
         ++ "<p>Body</p></html>");
      Log DEBUG MsgTemplateNotSet; Log DEBUG (MsgSettingTitle VNone);
      Log DEBUG (MsgActuallyRendering "p/content/d.md");
      WriteFile "p/build//d.html" "<html><p>just text</p></html>";
      Log DEBUG MsgTemplateNotSet;
      Log DEBUG (MsgSettingTitle (VStr "Broken"));
      Log CRITICAL MsgMarkdownFailed],
     Abort (SysExit 1))
  /\ exit_status
       (ending (main_generate (Mini.world Scenarios.blog)
                  (Mini.generate Scenarios.blog))) = 1%Z
  /\ exit_status
       (ending (main_generate (Mini.world Scenarios.blog)
                  (Mini.generate Scenarios.blog))) <> 0%Z.
Proof.
  refine (render_error_ends_run (Mini.world Scenarios.blog)
            (Mini.generate Scenarios.blog)
            {| config_var := Some [("name", VStr "Ben")];
               config_sync := None |}
            [] [("p/content/sub", [], ["z.md"])] "p/content/" ["sub"]
            ["c.md"; "d.md"] ["f.md"] "e.md"
            [("name", VStr "Ben")]
            [("name", VStr "Ben"); ("title", VNone)]
            [("name", VStr "Ben"); ("title", VStr "Broken")]
            []
            ("<h1>Broken</h1>" ++ Scenarios.nl ++ "<p>{{ var.missing }}</p>")
            ("# Broken" ++ Scenarios.nl ++ "{{ var.missing }}")
            "<html>{{ content }}</html>"
            []
            [Log WARNING
               (MsgInvalidTemplate (VStr "special.html") "p/content/c.md"
                  "default.html");
             Log DEBUG (MsgSettingTitle (VStr "Only Heading"));
             Log DEBUG (MsgActuallyRendering "p/content/c.md");
             WriteFile "p/build//c.html"
               ("<html><h1>Only Heading</h1>" ++ Scenarios.nl
                ++ "<p>Body</p></html>");
             Log DEBUG MsgTemplateNotSet; Log DEBUG (MsgSettingTitle VNone);
             Log DEBUG (MsgActuallyRendering "p/content/d.md");
             WriteFile "p/build//d.html" "<html><p>just text</p></html>"]
            [Log DEBUG MsgTemplateNotSet]
            [Log DEBUG (MsgSettingTitle (VStr "Broken"))]
            [Log CRITICAL MsgMarkdownFailed] (SysExit 1)
            _ _ _ _ _ _ _ _).
  - reflexivity.
  - vm_compute. reflexivity.
  - reflexivity.
  - vm_compute. reflexivity.
  - reflexivity.
  - exists [], [Log DEBUG MsgTemplateNotSet], (VStr "default.html").
    repeat split; reflexivity.
  - reflexivity.
  - apply content_pass_fails
      with (ct := ("<h1>Broken</h1>" ++ Scenarios.nl
                   ++ "<p>{{ var.missing }}</p>")%string)
           (exn := "UndefinedError"); reflexivity.
Defined.

(** ** The command line *)

(** C9, as the script has it: a command line that parses and names no
    sub-command makes the script parse [--help]; the help text is printed
    and the process leaves with status 0. *)
Theorem no_subcommand_prints_help_status_0 (w : World) (argv : list string)
  (ns : namespace) :
  Argparse.parse_args argv = Argparse.Namespace ns ->
  func ns = None ->
  main w argv = ([Print (HelpText None)], Abort (SysExit 0))
  /\ exit_status (ending (main w argv)) = 0%Z.
Proof.
  intros Hparse Hfunc.
  assert (H : main w argv = ([Print (HelpText None)], Abort (SysExit 0))).
  { unfold main, parse_args. rewrite Hparse. cbn [bind ret]. now rewrite Hfunc. }
  split; [exact H|]. now rewrite H.
Qed.

Lemma no_subcommand_prints_help_status_0_witness :
  main (Mini.world Scenarios.site) ["p"]
  = ([Print (HelpText None)], Abort (SysExit 0))
  /\ exit_status (ending (main (Mini.world Scenarios.site) ["p"])) = 0%Z.
Proof.
  refine (no_subcommand_prints_help_status_0 (Mini.world Scenarios.site) ["p"]
            {| loglevel := "INFO"; logfile := None; projectdir := "p";
               func := None; environment := None |} _ _); reflexivity.
Defined.

(** C9 as claimed fails at the command line [p]: no sub-command is given,
    and the exit status is not different from 0. *)
Lemma no_subcommand_status_counterexample :
  Argparse.parse_args ["p"]
  = Argparse.Namespace
      {| loglevel := "INFO"; logfile := None; projectdir := "p";
         func := None; environment := None |}
  /\ ~ (exit_status (ending (main (Mini.world Scenarios.site) ["p"])) <> 0%Z).
Proof. split; [reflexivity|]. intros H. now apply H. Qed.


(** * Further properties of the script *)

(** ** Text operations *)

Lemma prefix_app (p s : string) : String.prefix p (p ++ s) = true.
Proof.
  induction p as [|c p IH]; simpl; [now destruct s|].
  destruct (ascii_dec c c) as [_|N]; [exact IH|now elim N].
Qed.

Lemma drop_length_app (a b : string) : PyStr.drop (String.length a) (a ++ b) = b.
Proof. induction a as [|c a IH]; simpl; [now destruct b|exact IH]. Qed.

Lemma string_app_assoc (a b c : string) : (a ++ b) ++ c = a ++ (b ++ c).
Proof. induction a as [|x a IH]; simpl; [reflexivity|now rewrite IH]. Qed.

Lemma string_app_nil_r (a : string) : a ++ EmptyString = a.
Proof. induction a as [|x a IH]; simpl; [reflexivity|now rewrite IH]. Qed.

Lemma replace_scan_skip (old new : string) (k : nat) (s : string) :
  PyStr.replace_scan old new k s
  = PyStr.replace_scan old new 0 (PyStr.drop k s).
Proof.
  revert k. induction s as [|c s IH]; intros [|k]; try reflexivity.
  simpl PyStr.drop. rewrite <- IH. reflexivity.
Qed.

Lemma replace_scan_absent (old new s : string) :
  occurs old s = false -> PyStr.replace_scan old new 0 s = s.
Proof.
  induction s as [|c s IH]; intros H; [reflexivity|].
  cbn [occurs] in H. apply orb_false_iff in H as [Hp Ho].
  cbn [PyStr.replace_scan]. rewrite Hp. now rewrite (IH Ho).
Qed.

(** [replace] takes a leading [old] away and leaves the rest as it is when
    [old] does not occur in the rest. *)
Lemma replace_leading (old new rest : string) :
  old <> EmptyString ->
  occurs old rest = false ->
  PyStr.replace old new (old ++ rest) = new ++ rest.
Proof.
  intros Hne Hrest. destruct old as [|a o]; [now elim Hne|].
  unfold PyStr.replace.
  change (String a o ++ rest) with (String a (o ++ rest)).
  cbn [PyStr.replace_scan].
  change (String a (o ++ rest)) with (String a o ++ rest).
  rewrite prefix_app. f_equal.
  rewrite replace_scan_skip.
  replace (String.length (String a o) - 1) with (String.length o)
    by (cbn [String.length]; lia).
  rewrite drop_length_app. now apply replace_scan_absent.
Qed.

Lemma rev_acc_app (s acc : string) :
  PyStr.rev_acc s acc = PyStr.rev s ++ acc.
Proof.
  unfold PyStr.rev. revert acc.
  induction s as [|c s IH]; intros acc; [reflexivity|].
  cbn [PyStr.rev_acc]. rewrite (IH (String c acc)), (IH (String c EmptyString)).
  now rewrite string_app_assoc.
Qed.

Lemma rev_cons (c : ascii) (s : string) :
  PyStr.rev (String c s) = PyStr.rev s ++ String c EmptyString.
Proof. unfold PyStr.rev at 1. cbn [PyStr.rev_acc]. apply rev_acc_app. Qed.

Lemma rev_app (a b : string) : PyStr.rev (a ++ b) = PyStr.rev b ++ PyStr.rev a.
Proof.
  induction a as [|c a IH].
  - cbn. now rewrite string_app_nil_r.
  - change (String c a ++ b) with (String c (a ++ b)).
    now rewrite !rev_cons, IH, string_app_assoc.
Qed.

Lemma rev_involutive (s : string) : PyStr.rev (PyStr.rev s) = s.
Proof.
  induction s as [|c s IH]; [reflexivity|].
  now rewrite rev_cons, rev_app, IH.
Qed.

(** [s.endswith(p)] holds of everything that is built by putting [p] at
    the end. *)
Lemma endswith_app (s p : string) : PyStr.endswith (s ++ p) p = true.
Proof. unfold PyStr.endswith. rewrite rev_app. apply prefix_app. Qed.

Lemma prefix_split (p s : string) :
  String.prefix p s = true -> s = p ++ PyStr.drop (String.length p) s.
Proof.
  revert s. induction p as [|c p IH]; intros s H; [reflexivity|].
  destruct s as [|d s]; [discriminate|]. simpl in H.
  destruct (ascii_dec c d) as [<-|]; [|discriminate].
  cbn. f_equal. now apply IH.
Qed.

(** What [lstrip] returns is empty or starts with a character that is not
    white space, and it is what is left of [s] after a run of white
    space. *)
Lemma lstrip_head (s : string) (c : ascii) (t : string) :
  PyStr.lstrip s = String c t -> PyStr.isspace c = false.
Proof.
  induction s as [|d s IH]; cbn [PyStr.lstrip]; [discriminate|].
  destruct (PyStr.isspace d) eqn:E; [exact IH|].
  intros H. injection H as <- _. exact E.
Qed.

Lemma lstrip_suffix (s : string) : exists ws, s = ws ++ PyStr.lstrip s.
Proof.
  induction s as [|d s [ws IH]]; cbn [PyStr.lstrip].
  - now exists EmptyString.
  - destruct (PyStr.isspace d).
    + exists (String d ws). cbn. now rewrite <- IH.
    + now exists EmptyString.
Qed.

Lemma lstrip_fixed (s : string) :
  (forall c t, s = String c t -> PyStr.isspace c = false) ->
  PyStr.lstrip s = s.
Proof.
  destruct s as [|c t]; intros H; [reflexivity|].
  cbn [PyStr.lstrip]. now rewrite (H c t eq_refl).
Qed.

Lemma strip_head (s : string) (c : ascii) (t : string) :
  PyStr.strip s = String c t -> PyStr.isspace c = false.
Proof.
  unfold PyStr.strip, PyStr.rstrip. intros H.
  destruct (lstrip_suffix (PyStr.rev (PyStr.lstrip s))) as [ws Hws].
  apply (f_equal PyStr.rev) in Hws.
  rewrite rev_involutive, rev_app, H in Hws.
  apply (lstrip_head s c (t ++ PyStr.rev ws)). exact Hws.
Qed.

Lemma strip_last (s : string) (c : ascii) (t : string) :
  PyStr.rev (PyStr.strip s) = String c t -> PyStr.isspace c = false.
Proof.
  unfold PyStr.strip, PyStr.rstrip. rewrite rev_involutive.
  apply lstrip_head.
Qed.

Lemma strip_trimmed (s : string) :
  PyStr.lstrip (PyStr.strip s) = PyStr.strip s
  /\ PyStr.rstrip (PyStr.strip s) = PyStr.strip s
  /\ PyStr.strip (PyStr.strip s) = PyStr.strip s.
Proof.
  assert (Hl : PyStr.lstrip (PyStr.strip s) = PyStr.strip s).
  { apply lstrip_fixed. intros c t E. exact (strip_head s c t E). }
  assert (Hr : PyStr.rstrip (PyStr.strip s) = PyStr.strip s).
  { unfold PyStr.rstrip at 1. rewrite lstrip_fixed; [apply rev_involutive|].
    intros c t E. exact (strip_last s c t E). }
  repeat split; trivial. unfold PyStr.strip at 1. now rewrite Hl.
Qed.

(** ** get_first_heading *)

(** X1. A title that [get_first_heading] returns is trimmed: stripping it
    again, on the left or on the right, changes nothing. *)
Theorem get_first_heading_trimmed (markdown t : string) :
  get_first_heading markdown = VStr t ->
  PyStr.lstrip t = t /\ PyStr.rstrip t = t /\ PyStr.strip t = t.
Proof.
  unfold get_first_heading. revert t.
  induction (PyStr.split_lines markdown) as [|l ls IH]; intros t;
    cbn [first_heading_of]; [discriminate|].
  destruct (PyStr.startswith l "# "); [|apply IH].
  intros H. injection H as <-. apply strip_trimmed.
Qed.

Lemma get_first_heading_trimmed_witness :
  PyStr.lstrip "Only Heading" = "Only Heading"
  /\ PyStr.rstrip "Only Heading" = "Only Heading"
  /\ PyStr.strip "Only Heading" = "Only Heading".
Proof.
  apply (get_first_heading_trimmed
           ("intro" ++ Scenarios.nl ++ "#   Only Heading  " ++ Scenarios.nl
            ++ "# Second")).
  reflexivity.
Defined.

(** X2. [get_first_heading] returns [None] exactly when no line of the
    text starts with ["# "]; in particular sub-headings ([## ...]) and
    markers without a space after them do not count. *)
Theorem get_first_heading_None_iff (markdown : string) :
  get_first_heading markdown = VNone
  <-> forall l, In l (PyStr.split_lines markdown) ->
                PyStr.startswith l "# " = false.
Proof.
  unfold get_first_heading. split; [|apply first_heading_of_none].
  induction (PyStr.split_lines markdown) as [|l ls IH]; cbn [first_heading_of];
    intros H l' Hin; [now destruct Hin|].
  destruct (PyStr.startswith l "# ") eqn:E; [discriminate|].
  destruct Hin as [<-|Hin]; [exact E|now apply IH].
Qed.

(** X3. The title is taken from the first line that starts with ["# "],
    whatever comes after it; when ["# "] does not occur again in that
    line, the title is the line without its first two characters,
    trimmed. *)
Theorem get_first_heading_first_line (markdown : string)
  (before after : list string) (l : string) :
  PyStr.split_lines markdown = (before ++ l :: after)%list ->
  (forall l', In l' before -> PyStr.startswith l' "# " = false) ->
  PyStr.startswith l "# " = true ->
  occurs "# " (PyStr.drop 2 l) = false ->
  get_first_heading markdown = VStr (PyStr.strip (PyStr.drop 2 l)).
Proof.
  intros Hsplit Hbefore Hl Hrest. unfold get_first_heading.
  rewrite Hsplit, (first_heading_of_first before after l Hbefore Hl).
  pose proof (prefix_split "# " l Hl) as E. cbn [String.length] in E.
  rewrite E at 1.
  rewrite (replace_leading "# " EmptyString (PyStr.drop 2 l)); trivial.
  discriminate.
Qed.

Lemma get_first_heading_first_line_witness :
  get_first_heading
    ("intro" ++ Scenarios.nl ++ "## Sub" ++ Scenarios.nl
     ++ "# Only Heading " ++ Scenarios.nl ++ "# Second")
  = VStr "Only Heading".
Proof.
  refine (get_first_heading_first_line _ ["intro"; "## Sub"] ["# Second"]
            "# Only Heading " _ _ _ _); try reflexivity.
  intros l' [<-|[<-|[]]]; reflexivity.
Defined.

(** ** Output names *)

Lemma substring_length_app (a b : string) :
  String.substring 0 (String.length a) (a ++ b) = a.
Proof.
  induction a as [|c a IH]; cbn; [now destruct b|now rewrite IH].
Qed.

Lemma ext_index_no_dot (e : string) (i : nat) (seen : bool) :
  no_dot e = true -> PyStr.ext_index e i seen = None.
Proof.
  revert i seen. induction e as [|c e IH]; intros i seen H; [reflexivity|].
  cbn [no_dot] in H. apply andb_true_iff in H as [Hc He].
  cbn [PyStr.ext_index]. rewrite (IH _ _ He).
  apply negb_true_iff in Hc. now rewrite Hc.
Qed.

Lemma ext_index_app (base e : string) (i : nat) (seen : bool) :
  no_dot e = true ->
  PyStr.ext_index (base ++ String "."%char e) i seen
  = if seen || negb (all_dots base) then Some (i + String.length base)
    else None.
Proof.
  intros He. revert i seen.
  induction base as [|c base IH]; intros i seen.
  - cbn [append PyStr.ext_index all_dots String.length].
    rewrite (ext_index_no_dot e _ _ He). cbn. rewrite orb_false_r, Nat.add_0_r.
    reflexivity.
  - change (String c base ++ String "."%char e)
      with (String c (base ++ String "."%char e)).
    cbn [PyStr.ext_index all_dots String.length]. rewrite IH.
    destruct seen, (Ascii.eqb c "."%char), (all_dots base); cbn;
      try reflexivity; f_equal; lia.
Qed.

(** X4. A name made of a base with a character other than a dot, a dot and
    an extension without dots is split at that last dot: [a.md] gives [a],
    [x.tar.md] gives [x.tar], [.hidden.md] gives [.hidden]. *)
Theorem splitext_base (base e : string) :
  all_dots base = false ->
  no_dot e = true ->
  PyStr.splitext (base ++ String "."%char e) = (base, String "."%char e).
Proof.
  intros Hb He. unfold PyStr.splitext.
  rewrite (ext_index_app base e 0 false He), Hb. cbn [orb negb Nat.add].
  now rewrite substring_length_app, drop_length_app.
Qed.

Lemma splitext_base_witness :
  PyStr.splitext ("x.tar" ++ String "."%char "md") = ("x.tar", ".md").
Proof. apply (splitext_base "x.tar" "md"); reflexivity. Defined.

(** X5. A name that is nothing but leading dots before its last dot has no
    extension for [os.path.splitext]: the file [.md] is written as
    [.md.html]. *)
Theorem splitext_leading_dots (base e : string) :
  all_dots base = true ->
  no_dot e = true ->
  PyStr.splitext (base ++ String "."%char e)
  = (base ++ String "."%char e, EmptyString).
Proof.
  intros Hb He. unfold PyStr.splitext.
  now rewrite (ext_index_app base e 0 false He), Hb.
Qed.

Lemma splitext_leading_dots_witness :
  PyStr.splitext (EmptyString ++ String "."%char "md") = (".md", EmptyString).
Proof. apply (splitext_leading_dots EmptyString "md"); reflexivity. Defined.

Lemma generate_file_ok (w : World) (projectdir root dest file : string)
  (var var' fm : dict) (content raw c1 html : string)
  (tmpl ct : template w) (pre trt : list event) :
  let file_path := PyStr.replace "//" "/" (root ++ "/" ++ file) in
  PyStr.endswith file "md" = true ->
  prepared w projectdir file_path fm content raw tmpl pre ->
  set_title fm raw var = (trt, Normal var') ->
  from_string w content = Ok ct ->
  render w ct [("var", BDict var')] = Ok c1 ->
  render w tmpl [("content", BStr c1); ("var", BDict var')] = Ok html ->
  generate_file w projectdir root dest file var
  = ((pre ++ trt
      ++ [Log DEBUG (MsgActuallyRendering file_path);
          WriteFile (dest ++ "/" ++ fst (PyStr.splitext file) ++ ".html")
            html])%list,
     Normal var').
Proof.
  intros file_path Hmd Hprep Ht Hf Hc Hr.
  rewrite (generate_file_prepared w projectdir root dest file var var' fm
             content raw tmpl pre trt Hmd Hprep Ht).
  fold file_path.
  rewrite (render_page_ok w file_path content c1 html tmpl ct var' Hf Hc Hr).
  cbn. now rewrite <- app_assoc.
Qed.

Lemma endswith_dot_md (base : string) :
  PyStr.endswith (base ++ ".md") "md" = true.
Proof.
  change ".md" with ("." ++ "md"). rewrite <- string_app_assoc.
  apply endswith_app.
Qed.

(** X4. A file [base.md], where [base] has a character other than a dot,
    is rendered (its name ends in [md]) and, when both passes succeed, the
    page is written to [dest/base.html]: [x.tar.md] becomes
    [x.tar.html]. *)
Theorem markdown_written_as_html (w : World)
  (projectdir root dest base : string) (var var' fm : dict)
  (content raw c1 html : string) (tmpl ct : template w)
  (pre trt : list event) :
  let file := base ++ ".md" in
  let file_path := PyStr.replace "//" "/" (root ++ "/" ++ file) in
  all_dots base = false ->
  prepared w projectdir file_path fm content raw tmpl pre ->
  set_title fm raw var = (trt, Normal var') ->
  from_string w content = Ok ct ->
  render w ct [("var", BDict var')] = Ok c1 ->
  render w tmpl [("content", BStr c1); ("var", BDict var')] = Ok html ->
  generate_file w projectdir root dest file var
  = ((pre ++ trt
      ++ [Log DEBUG (MsgActuallyRendering file_path);
          WriteFile (dest ++ "/" ++ base ++ ".html") html])%list,
     Normal var').
Proof.
  intros file file_path Hb Hprep Ht Hf Hc Hr.
  rewrite (generate_file_ok w projectdir root dest file var var' fm content
             raw c1 html tmpl ct pre trt (endswith_dot_md base) Hprep Ht
             Hf Hc Hr).
  unfold file. now rewrite (splitext_base base "md" Hb eq_refl).
Qed.

Lemma markdown_written_as_html_witness :
  generate_file (Mini.world Scenarios.site) "p" "p/content/" "p/build/"
    ("a" ++ ".md") [("name", VStr "Ben")]
  = ([Log DEBUG MsgTemplateNotSet;
      Log DEBUG (MsgSettingTitle (VStr "World"));
      Log DEBUG (MsgOverwritingTitle (VStr "Hello"));
      Log DEBUG (MsgActuallyRendering "p/content/a.md");
      WriteFile "p/build//a.html"
        ("<html>Hello:<h1>World</h1>" ++ Scenarios.nl
         ++ "<p>Text Ben</p></html>")],
     Normal [("name", VStr "Ben"); ("title", VStr "Hello")]).
Proof.
  refine (markdown_written_as_html (Mini.world Scenarios.site)
            "p" "p/content/" "p/build/" "a" [("name", VStr "Ben")]
            [("name", VStr "Ben"); ("title", VStr "Hello")]
            [("title", VStr "Hello")]
            ("<h1>World</h1>" ++ Scenarios.nl ++ "<p>Text {{ var.name }}</p>")
            ("---" ++ Scenarios.nl ++ "title: Hello" ++ Scenarios.nl ++ "---"
             ++ Scenarios.nl ++ "# World" ++ Scenarios.nl
             ++ "Text {{ var.name }}")
            ("<h1>World</h1>" ++ Scenarios.nl ++ "<p>Text Ben</p>")
            ("<html>Hello:<h1>World</h1>" ++ Scenarios.nl
             ++ "<p>Text Ben</p></html>")
            "<html>{{ var.title }}:{{ content }}</html>"
            ("<h1>World</h1>" ++ Scenarios.nl ++ "<p>Text {{ var.name }}</p>")
            [Log DEBUG MsgTemplateNotSet]
            [Log DEBUG (MsgSettingTitle (VStr "World"));
             Log DEBUG (MsgOverwritingTitle (VStr "Hello"))]
            _ _ _ _ _ _).
  - reflexivity.
  - exists [], [Log DEBUG MsgTemplateNotSet], (VStr "default.html").
    repeat split; reflexivity.
  - reflexivity.
  - reflexivity.
  - reflexivity.
  - reflexivity.
Defined.

(** ** What a run touches *)

Lemma trace_bind_Forall {A B : Type} (P : event -> Prop) (m : M A)
  (f : A -> M B) :
  Forall P (trace m) ->
  (forall a, Forall P (trace (f a))) ->
  Forall P (trace (bind m f)).
Proof.
  intros Hm Hf. destruct m as [t [a|o]]; cbn in *; [|exact Hm].
  specialize (Hf a). destruct (f a) as [t' r]. cbn in *.
  apply Forall_app. now split.
Qed.

Lemma trace_for_each_Forall {A S : Type} (P : event -> Prop)
  (body : A -> S -> M S) (l : list A) (s : S) :
  (forall a s', In a l -> Forall P (trace (body a s'))) ->
  Forall P (trace (for_each body l s)).
Proof.
  revert s. induction l as [|a l IH]; intros s H; cbn [for_each].
  - constructor.
  - apply trace_bind_Forall.
    + apply H. now left.
    + intros s'. apply IH. intros a' s'' Hin. apply H. now right.
Qed.

Lemma trace_call_Forall {A : Type} (P : event -> Prop) (r : result A) :
  Forall P (trace (call r)).
Proof. destruct r; constructor. Qed.

Lemma prefix_app_l (p d x : string) :
  String.prefix p d = true -> String.prefix p (d ++ x) = true.
Proof.
  intros H. rewrite (prefix_split p d H), string_app_assoc. apply prefix_app.
Qed.

(** The events of one step of the script. *)
Ltac events :=
  repeat first
    [ apply trace_call_Forall
    | apply trace_bind_Forall; [|intros]
    | match goal with
      | |- Forall _ (trace (ret _)) => constructor
      | |- Forall _ (trace (sys_exit _)) => constructor
      | |- Forall _ (trace (logging _ _)) => repeat constructor
      | |- Forall _ (trace (try_except ?r _)) => destruct r; cbn [try_except]
      | |- Forall _ (trace (if ?b then _ else _)) => destruct b
      | |- Forall _ (trace (match ?x with Some _ => _ | None => _ end)) =>
          destruct x
      | |- Forall _ (trace (match ?p with (_, _) => _ end)) => destruct p
      end ].

Lemma generate_file_stays_in_build (w : World)
  (projectdir builddir root dest file : string) (var : dict) :
  String.prefix builddir dest = true ->
  Forall (fun e => stays_in_build builddir e = true)
    (trace (generate_file w projectdir root dest file var)).
Proof.
  intros Hd. unfold generate_file, parse_markdown_with_front_matter,
    choose_template, set_title, render_page, dict_item.
  events; repeat constructor; cbn [stays_in_build]; now apply prefix_app_l.
Qed.

Lemma generate_dir_stays_in_build (w : World) (projectdir : string)
  (entry : walk_entry) (var : dict) :
  Forall (fun e => stays_in_build (projectdir ++ "/build/") e = true)
    (trace (generate_dir w projectdir (projectdir ++ "/build/") entry var)).
Proof.
  destruct entry as [[root dirs] files]. unfold generate_dir.
  apply trace_bind_Forall.
  - repeat constructor. cbn [stays_in_build]. apply prefix_app.
  - intros _. apply trace_for_each_Forall. intros file var' _.
    apply generate_file_stays_in_build, prefix_app.
Qed.

(** X6. Whatever the project holds and however the run ends, the calls a
    generate run itself makes on the file system stay with the build
    folder: every [os.mkdir], every destination of [shutil.copy] and every
    page it writes is at a path whose text begins with [projectdir/build/],
    the only [rmtree] is of that folder, and no command is run.  Logging,
    which prints records and may write a log file anywhere, is apart. *)
Theorem main_generate_stays_in_build (w : World) (args : namespace) :
  Forall (fun e => stays_in_build (projectdir args ++ "/build/") e = true)
    (trace (main_generate w args)).
Proof.
  unfold main_generate, set_logging, get_config.
  apply trace_bind_Forall; [repeat constructor|intros _].
  apply trace_bind_Forall; [apply trace_call_Forall|intros cfg].
  apply trace_bind_Forall; [|intros _].
  - destruct (path_exists w _); repeat constructor.
    cbn [stays_in_build]. apply String.eqb_refl.
  - apply trace_bind_Forall; [|intros; constructor].
    apply trace_for_each_Forall. intros entry var _.
    apply generate_dir_stays_in_build.
Qed.

(** ** Exit status *)

Lemma abort_bind {A B : Type} (Q : outcome -> Prop) (m : M A) (f : A -> M B) :
  (forall o, ending m = Abort o -> Q o) ->
  (forall a o, ending (f a) = Abort o -> Q o) ->
  forall o, ending (bind m f) = Abort o -> Q o.
Proof.
  intros Hm Hf o. destruct m as [t [a|o']]; cbn in *.
  - specialize (Hf a o). destruct (f a) as [t' r]. exact Hf.
  - intros H. injection H as <-. now apply Hm.
Qed.

Lemma abort_for_each {A S : Type} (Q : outcome -> Prop)
  (body : A -> S -> M S) (l : list A) (s : S) :
  (forall a s' o, ending (body a s') = Abort o -> Q o) ->
  forall o, ending (for_each body l s) = Abort o -> Q o.
Proof.
  intros H. revert s. induction l as [|a l IH]; intros s; cbn [for_each].
  - discriminate.
  - apply abort_bind; [apply H|intros s'; apply IH].
Qed.

Lemma abort_call {A : Type} (r : result A) (o : outcome) :
  ending (call r) = Abort o -> exists exn, o = Uncaught exn.
Proof.
  destruct r as [a|exn]; cbn; [discriminate|].
  intros H. injection H as <-. now exists exn.
Qed.

(** The aborts of one step of the script. *)
Ltac aborts :=
  repeat first
    [ apply abort_bind; [|intros ?]
    | match goal with
      | |- forall o, ending (call _) = Abort o -> _ =>
          let o := fresh "o" in let H := fresh "H" in
          intros o H; right; exact (abort_call _ o H)
      | |- forall o, ending (ret _) = Abort o -> _ => discriminate
      | |- forall o, ending (emit _) = Abort o -> _ => discriminate
      | |- forall o, ending (logging _ _) = Abort o -> _ => discriminate
      | |- forall o, ending (sys_exit 1) = Abort o -> _ =>
          let o := fresh "o" in let H := fresh "H" in
          intros o H; left; now injection H as <-
      | |- forall o, ending (try_except ?r _) = Abort o -> _ =>
          destruct r; cbn [try_except]
      | |- forall o, ending (if ?b then _ else _) = Abort o -> _ => destruct b
      | |- forall o, ending (match ?x with Some _ => _ | None => _ end)
                     = Abort o -> _ => destruct x
      | |- forall o, ending (match ?p with (_, _) => _ end) = Abort o -> _ =>
          destruct p
      end ].

Lemma generate_file_aborts (w : World)
  (projectdir root dest file : string) (var : dict) (o : outcome) :
  ending (generate_file w projectdir root dest file var) = Abort o ->
  o = SysExit 1 \/ exists exn, o = Uncaught exn.
Proof.
  revert o. unfold generate_file, parse_markdown_with_front_matter,
    choose_template, set_title, render_page, dict_item.
  aborts.
Qed.

Lemma main_generate_aborts (w : World) (args : namespace) (o : outcome) :
  ending (main_generate w args) = Abort o ->
  o = SysExit 1 \/ exists exn, o = Uncaught exn.
Proof.
  revert o. unfold main_generate, set_logging, get_config.
  apply abort_bind; [discriminate|intros _].
  apply abort_bind; [aborts|intros cfg].
  apply abort_bind; [aborts|intros _].
  apply abort_bind; [|intros; discriminate].
  apply abort_for_each. intros [[root dirs] files] var. unfold generate_dir.
  apply abort_bind; [discriminate|intros _].
  apply abort_for_each. intros file var' o. apply generate_file_aborts.
Qed.

(** X7. A generate run that does not run to its end ends either through
    [sys.exit(1)] or through an exception nobody catches; the exit status
    of the process is 0 when the run reaches its end and 1 otherwise. *)
Theorem main_generate_exit_status (w : World) (args : namespace) :
  (forall o, ending (main_generate w args) = Abort o ->
             o = SysExit 1 \/ exists exn, o = Uncaught exn)
  /\ (ending (main_generate w args) = Normal tt
      /\ exit_status (ending (main_generate w args)) = 0%Z
      \/ (exists o, ending (main_generate w args) = Abort o)
         /\ exit_status (ending (main_generate w args)) = 1%Z).
Proof.
  split; [apply main_generate_aborts|].
  destruct (ending (main_generate w args)) as [[]|o] eqn:E.
  - left. now split.
  - right. split; [now exists o|].
    destruct (main_generate_aborts w args o E) as [->|[exn ->]]; reflexivity.
Qed.

(** ** Runs that stop early *)

(** X8. When [config.yml] does not load, the run ends with that exception
    right after logging is set up: the build folder is not removed and
    nothing is made or written. *)
Theorem config_failure_touches_nothing (w : World) (args : namespace)
  (exn : string) :
  safe_load w (projectdir args ++ "/config.yml") = Raise exn ->
  main_generate w args
  = ([BasicConfig (loglevel args) (logfile args)], Abort (Uncaught exn)).
Proof.
  intros H. unfold main_generate, set_logging, get_config. now rewrite H.
Qed.

Lemma config_failure_touches_nothing_witness :
  main_generate (Mini.world Cases.broken_config)
    (Mini.generate Cases.broken_config)
  = ([BasicConfig "INFO" None], Abort (Uncaught "YAMLError")).
Proof.
  apply (config_failure_touches_nothing (Mini.world Cases.broken_config)
           (Mini.generate Cases.broken_config) "YAMLError").
  reflexivity.
Defined.

(** X9. When the project has no content folder the walk yields nothing:
    the run removes an existing build folder, makes no directory, not even
    the build folder itself, and ends normally. *)
Theorem missing_content_folder (w : World) (args : namespace) (cfg : config) :
  safe_load w (projectdir args ++ "/config.yml") = Ok cfg ->
  listdir_tree w (projectdir args ++ "/content/") = None ->
  main_generate w args
  = ((BasicConfig (loglevel args) (logfile args)
      :: removal w (projectdir args ++ "/build/"))%list,
     Normal tt).
Proof.
  intros Hcfg Hdir. unfold main_generate, set_logging, get_config, walk_content.
  change (projectdir args ++ "/" ++ "content/")
    with (projectdir args ++ "/content/").
  rewrite Hcfg, Hdir. unfold removal.
  destruct (path_exists w _); reflexivity.
Qed.

Lemma missing_content_folder_witness :
  main_generate (Mini.world Cases.no_content) (Mini.generate Cases.no_content)
  = ([BasicConfig "INFO" None; Log DEBUG MsgRemovingBuild; Rmtree "p/build/"],
     Normal tt).
Proof.
  refine (missing_content_folder (Mini.world Cases.no_content)
            (Mini.generate Cases.no_content)
            {| config_var := Some [("name", VStr "Ben")];
               config_sync := None |} _ _); reflexivity.
Defined.

(** ** Directories *)

Lemma filter_none {A : Type} (p : A -> bool) (l : list A) :
  Forall (fun a => p a = false) l -> filter p l = [].
Proof.
  induction 1 as [|a l Ha _ IH]; [reflexivity|]. cbn. now rewrite Ha.
Qed.

Lemma generate_file_no_mkdir (w : World)
  (projectdir root dest file : string) (var : dict) :
  filter is_mkdir (trace (generate_file w projectdir root dest file var)) = [].
Proof.
  apply filter_none.
  unfold generate_file, parse_markdown_with_front_matter,
    choose_template, set_title, render_page, dict_item.
  events; repeat constructor.
Qed.

Lemma filter_trace_bind {A B : Type} (p : event -> bool) (m : M A)
  (f : A -> M B) :
  filter p (trace (bind m f))
  = match ending m with
    | Normal a => (filter p (trace m) ++ filter p (trace (f a)))%list
    | Abort _ => filter p (trace m)
    end.
Proof.
  destruct m as [t [a|o]]; cbn; [|reflexivity].
  destruct (f a) as [t' r]. cbn. apply filter_app.
Qed.

Lemma for_each_files_no_mkdir (w : World) (projectdir root dest : string)
  (files : list string) (var : dict) :
  filter is_mkdir
    (trace (for_each (generate_file w projectdir root dest) files var)) = [].
Proof.
  revert var. induction files as [|file files IH]; intros var; [reflexivity|].
  cbn [for_each]. rewrite filter_trace_bind, generate_file_no_mkdir.
  destruct (ending _); [apply IH|reflexivity].
Qed.

Lemma generate_dir_one_mkdir (w : World) (projectdir : string)
  (entry : walk_entry) (var : dict) :
  filter is_mkdir
    (trace (generate_dir w projectdir (projectdir ++ "/build/") entry var))
  = [Mkdir (dest_of projectdir entry)].
Proof.
  destruct entry as [[root dirs] files]. unfold generate_dir.
  rewrite filter_trace_bind. cbn [ending emit snd trace fst filter is_mkdir].
  now rewrite for_each_files_no_mkdir.
Qed.

Lemma for_each_dirs_mkdirs (w : World) (projectdir : string)
  (entries : list walk_entry) (var : dict) :
  exists k,
    filter is_mkdir
      (trace (for_each (generate_dir w projectdir (projectdir ++ "/build/"))
                entries var))
    = map (fun entry => Mkdir (dest_of projectdir entry)) (firstn k entries)
    /\ k <= length entries
    /\ ((exists var',
            ending (for_each (generate_dir w projectdir
                                (projectdir ++ "/build/")) entries var)
            = Normal var')
        -> k = length entries).
Proof.
  revert var. induction entries as [|entry entries IH]; intros var.
  - exists 0. repeat split; trivial.
  - cbn [for_each]. rewrite filter_trace_bind, generate_dir_one_mkdir.
    destruct (generate_dir w projectdir _ entry var) as [t [var1|o]] eqn:E;
      cbn [ending snd bind].
    + destruct (IH var1) as (k & Hk & Hle & Hn). exists (S k).
      destruct (for_each _ entries var1) as [t' r]. cbn [ending snd] in *.
      cbn [firstn map length]. rewrite <- Hk. repeat split; trivial.
      * lia.
      * intros H. f_equal. now apply Hn.
    + exists 1. cbn [firstn map length]. repeat split; [lia|].
      intros [var' H]. discriminate H.
Qed.

(** X11. The directories a generate run makes are those of the walk, one
    [mkdir] per visited directory, in walk order and never twice for the
    same visit: the list of [mkdir]s is that of the first [k] entries of
    the walk, and of all entries when the run reaches its end. *)
Theorem mkdirs_follow_the_walk (w : World) (args : namespace) :
  exists k,
    filter is_mkdir (trace (main_generate w args))
    = map (fun entry => Mkdir (dest_of (projectdir args) entry))
        (firstn k (walk_content w (projectdir args)))
    /\ k <= length (walk_content w (projectdir args))
    /\ (ending (main_generate w args) = Normal tt ->
        k = length (walk_content w (projectdir args))).
Proof.
  unfold main_generate, set_logging, get_config.
  destruct (safe_load w _) as [cfg|exn].
  - destruct (for_each_dirs_mkdirs w (projectdir args)
                (walk_content w (projectdir args)) (initial_var cfg))
      as (k & Hk & Hle & Hn).
    exists k. cbn [call ret emit bind].
    destruct (for_each _ _ (initial_var cfg)) as [t r]. cbn [trace fst] in Hk.
    destruct (path_exists w _); destruct r as [var'|o];
      cbn [logging emit bind ret trace ending fst snd app filter is_mkdir] in *;
      rewrite ?app_nil_r; (split; [exact Hk|split; [exact Hle|]]);
      intros H; try discriminate H; apply Hn; now exists var'.
  - exists 0. cbn. split; [reflexivity|]. split; [lia|discriminate].
Qed.

Lemma replace_content_prefix (projectdir rel : string) :
  occurs (projectdir ++ "/content/") rel = false ->
  PyStr.replace (projectdir ++ "/content/") EmptyString
    (projectdir ++ "/content/" ++ rel)
  = rel.
Proof.
  intros Hrel. rewrite <- (string_app_assoc projectdir "/content/" rel).
  rewrite replace_leading; trivial. now destruct projectdir.
Qed.

(** X13. For a directory of the walk below the content folder whose path
    after [projectdir/content/] does not hold that text again, the directory
    made is the one at the same relative path below the build folder, and
    making it is the first thing done for the directory. *)
Theorem mirrored_directory_first (w : World) (projectdir rel : string)
  (dirs files : list string) (var : dict) :
  occurs (projectdir ++ "/content/") rel = false ->
  exists rest,
    trace (generate_dir w projectdir (projectdir ++ "/build/")
             (projectdir ++ "/content/" ++ rel, dirs, files) var)
    = Mkdir (projectdir ++ "/build/" ++ rel) :: rest.
Proof.
  intros Hrel.
  destruct (generate_dir_mkdir_first w projectdir (projectdir ++ "/build/")
              (projectdir ++ "/content/" ++ rel) dirs files var) as [rest H].
  exists rest. rewrite H, (replace_content_prefix projectdir rel Hrel).
  now rewrite string_app_assoc.
Qed.

Lemma mirrored_directory_first_witness :
  exists rest,
    trace (generate_dir (Mini.world Cases.assets) "p" ("p" ++ "/build/")
             ("p" ++ "/content/" ++ "img/big", [], ["x.png"])
             [("name", VStr "Ben")])
    = Mkdir ("p" ++ "/build/" ++ "img/big") :: rest.
Proof.
  apply (mirrored_directory_first (Mini.world Cases.assets) "p" "img/big").
  reflexivity.
Defined.

(** ** The variables *)

Lemma dict_get_set_other (k k' : string) (v : value) (d : dict) :
  k' <> k -> dict_get k' (dict_set k v d) = dict_get k' d.
Proof.
  intros Hne. induction d as [|[k0 v0] d IH]; cbn [dict_set dict_get].
  - destruct (String.eqb_spec k k'); [congruence|reflexivity].
  - destruct (String.eqb_spec k0 k) as [->|Hk]; cbn [dict_get].
    + destruct (String.eqb_spec k k'); [congruence|reflexivity].
    + now rewrite IH.
Qed.

Lemma dict_get_absent (k : string) (d : dict) :
  ~ In k (map fst d) -> dict_get k d = None.
Proof.
  induction d as [|[k0 v0] d IH]; cbn; [reflexivity|]. intros H.
  destruct (String.eqb_spec k0 k) as [->|_]; [elim H; now left|].
  apply IH. intros Hin. apply H. now right.
Qed.

Lemma dict_get_present (k : string) (d : dict) :
  In k (map fst d) -> exists v, dict_get k d = Some v.
Proof.
  induction d as [|[k0 v0] d IH]; cbn; [intros []|]. intros H.
  destruct (String.eqb_spec k0 k) as [->|Hne]; [now exists v0|].
  apply IH. destruct H as [H|H]; [congruence|exact H].
Qed.

Lemma dict_set_absent (k : string) (v : value) (d : dict) :
  ~ In k (map fst d) -> dict_set k v d = (d ++ [(k, v)])%list.
Proof.
  induction d as [|[k0 v0] d IH]; cbn; [reflexivity|]. intros H.
  destruct (String.eqb_spec k0 k) as [->|_]; [elim H; now left|].
  rewrite IH; [reflexivity|]. intros Hin. apply H. now right.
Qed.

Lemma dict_get_app_absent (k : string) (d1 d2 : dict) :
  ~ In k (map fst d1) -> dict_get k (d1 ++ d2)%list = dict_get k d2.
Proof.
  induction d1 as [|[k0 v0] d1 IH]; cbn; [reflexivity|]. intros H.
  destruct (String.eqb_spec k0 k) as [->|_]; [elim H; now left|].
  apply IH. intros Hin. apply H. now right.
Qed.

(** The loop of lines 70-71 over the keys [ks] of [d], from [var]. *)
Lemma copy_loop_lookup (d : dict) (ks : list string) (var : dict) (k : string) :
  (forall k', In k' ks -> In k' (map fst d)) ->
  dict_get k
    (fold_left
       (fun var v =>
          match dict_get v d with
          | Some x => dict_set v x var
          | None => var
          end) ks var)
  = if existsb (String.eqb k) ks then dict_get k d else dict_get k var.
Proof.
  revert var. induction ks as [|a ks IH]; intros var Hks; [reflexivity|].
  cbn [fold_left existsb]. rewrite IH by (intros; apply Hks; now right).
  destruct (dict_get_present a d (Hks a (or_introl eq_refl))) as [x Hx].
  rewrite Hx. destruct (existsb (String.eqb k) ks); [now rewrite orb_true_r|].
  rewrite orb_false_r. destruct (String.eqb_spec k a) as [->|Hne].
  - now rewrite dict_get_set.
  - now apply dict_get_set_other.
Qed.

Lemma copy_loop_order (d1 d2 : dict) :
  NoDup (map fst (d1 ++ d2)%list) ->
  fold_left
    (fun var v =>
       match dict_get v (d1 ++ d2)%list with
       | Some x => dict_set v x var
       | None => var
       end) (map fst d2) d1
  = (d1 ++ d2)%list.
Proof.
  revert d1. induction d2 as [|[k v] d2 IH]; intros d1 Hnd.
  - now rewrite app_nil_r.
  - cbn [map fst fold_left].
    assert (Hk : ~ In k (map fst d1)).
    { rewrite map_app in Hnd. cbn in Hnd.
      apply NoDup_remove_2 in Hnd. intros Hin. apply Hnd.
      apply in_or_app. now left. }
    rewrite (dict_get_app_absent k d1 _ Hk). cbn [dict_get].
    rewrite String.eqb_refl, (dict_set_absent k v d1 Hk).
    replace (d1 ++ (k, v) :: d2)%list with ((d1 ++ [(k, v)]) ++ d2)%list
      by now rewrite <- app_assoc.
    apply IH. now rewrite <- app_assoc.
Qed.

(** X14. The variables a run starts with are those of [config.yml]: every
    name of the [var] mapping is found with its configured value and no
    other name is found; when the names of the mapping are distinct, the
    copy is the mapping itself, in the same order. *)
Theorem initial_var_is_config_var (c : config) (d : dict) :
  config_var c = Some d ->
  (forall k, dict_get k (initial_var c) = dict_get k d)
  /\ (NoDup (map fst d) -> initial_var c = d).
Proof.
  intros Hc. unfold initial_var. rewrite Hc. split.
  - intros k. rewrite copy_loop_lookup by trivial. cbn [dict_get].
    destruct (existsb (String.eqb k) (map fst d)) eqn:E; [reflexivity|].
    symmetry. apply dict_get_absent. intros Hin.
    assert (existsb (String.eqb k) (map fst d) = true)
      by (apply existsb_exists; exists k; split;
          [exact Hin|apply String.eqb_refl]).
    congruence.
  - intros Hnd. exact (copy_loop_order [] d Hnd).
Qed.

Lemma initial_var_is_config_var_witness :
  (forall k,
      dict_get k
        (initial_var
           {| config_var := Some [("name", VStr "Ben"); ("year", VObj "2024")];
              config_sync := None |})
      = dict_get k [("name", VStr "Ben"); ("year", VObj "2024")])
  /\ (NoDup (map fst [("name", VStr "Ben"); ("year", VObj "2024")]) ->
      initial_var
        {| config_var := Some [("name", VStr "Ben"); ("year", VObj "2024")];
           config_sync := None |}
      = [("name", VStr "Ben"); ("year", VObj "2024")]).
Proof.
  apply (initial_var_is_config_var
           {| config_var := Some [("name", VStr "Ben"); ("year", VObj "2024")];
              config_sync := None |}).
  reflexivity.
Defined.



(** ** The template *)

(** X17. A template that does not load is fatal and is not handled: when
    [get_template] raises for the chosen template, for instance because
    [default.html] is missing, the file ends with that exception before
    the title is set; nothing is logged at level CRITICAL and nothing is
    written. *)
Theorem template_load_failure_uncaught (w : World)
  (projectdir root dest file : string) (var fm : dict)
  (content raw exn : string) (name : value) (trp trc : list event) :
  let file_path := PyStr.replace "//" "/" (root ++ "/" ++ file) in
  PyStr.endswith file "md" = true ->
  parse_markdown_with_front_matter w file_path
  = (trp, Normal (fm, content, raw)) ->
  choose_template w projectdir file_path fm = (trc, Normal name) ->
  get_template w (projectdir ++ "/templates") name = Raise exn ->
  generate_file w projectdir root dest file var
  = ((trp ++ trc)%list, Abort (Uncaught exn)).
Proof.
  intros file_path Hmd Hp Hc Hg. unfold generate_file.
  rewrite Hmd. cbn [negb]. fold file_path.
  rewrite Hp. cbn [bind]. rewrite Hc. cbn [bind]. rewrite Hg.
  cbn. now rewrite app_nil_r.
Qed.

Lemma template_load_failure_uncaught_witness :
  generate_file (Mini.world Cases.no_default) "p" "p/content/" "p/build/"
    "a.md" [("name", VStr "Ben")]
  = ([Log DEBUG MsgTemplateNotSet], Abort (Uncaught "TemplateNotFound")).
Proof.
  refine (template_load_failure_uncaught (Mini.world Cases.no_default)
            "p" "p/content/" "p/build/" "a.md" [("name", VStr "Ben")]
            [] "<h1>A</h1>" "# A" "TemplateNotFound" (VStr "default.html")
            [] [Log DEBUG MsgTemplateNotSet] _ _ _ _); reflexivity.
Defined.

(** ** sync *)

(** X18. With a [sync] section that has the environment and its [dest],
    [sync] runs one command, [rsync -az --delete] from the build folder to
    [dest]; when the command succeeds the run ends normally after logging
    that rsync is done, when it fails the run logs at level CRITICAL and
    leaves with status 1.  Nothing is made, copied, written or removed by
    the script itself. *)
Theorem main_sync_runs_rsync (w : World) (args : namespace) (cfg : config)
  (sync : list (string * dict)) (env : string) (target : dict) (dest : value) :
  let command :=
    "rsync -az --delete " ++ (projectdir args ++ "/build/") ++ " "
    ++ py_str dest in
  safe_load w (projectdir args ++ "/config.yml") = Ok cfg ->
  config_sync cfg = Some sync ->
  environment args = Some env ->
  find (fun p => String.eqb (fst p) env) sync = Some (env, target) ->
  dict_get "dest" target = Some dest ->
  main_sync w args
  = match check_call w command with
    | Ok _ =>
        ([BasicConfig (loglevel args) (logfile args);
          Log INFO MsgStartingRsync; CheckCall command; Log INFO MsgRsyncDone],
         Normal tt)
    | Raise _ =>
        ([BasicConfig (loglevel args) (logfile args);
          Log INFO MsgStartingRsync; CheckCall command;
          Log CRITICAL MsgRsyncFailed],
         Abort (SysExit 1))
    end.
Proof.
  intros command Hcfg Hsync Henv Hfind Hdest.
  unfold main_sync, set_logging, get_config, dict_item.
  rewrite Hcfg. cbn [call ret emit bind]. rewrite Hsync. cbn [ret bind].
  rewrite Henv. cbn [ret bind]. rewrite Hfind. cbn [ret bind snd].
  rewrite Hdest. cbn [ret bind logging emit]. fold command.
  now destruct (check_call w command) as [[]|exn].
Qed.

Lemma main_sync_runs_rsync_witness :
  main_sync (Mini.world Cases.synced) (Cases.sync_to "prod")
  = ([BasicConfig "INFO" None; Log INFO MsgStartingRsync;
      CheckCall "rsync -az --delete p/build/ host:/srv/www";
      Log INFO MsgRsyncDone],
     Normal tt).
Proof.
  refine (main_sync_runs_rsync (Mini.world Cases.synced)
            (Cases.sync_to "prod")
            {| config_var := Some [("name", VStr "Ben"); ("year", VObj "2024")];
               config_sync := Some [("prod", [("dest", VStr "host:/srv/www")])]
            |}
            [("prod", [("dest", VStr "host:/srv/www")])] "prod"
            [("dest", VStr "host:/srv/www")] (VStr "host:/srv/www")
            _ _ _ _ _); reflexivity.
Defined.

(** X19. A sync that ends with an exception nobody catches (no
    configuration, no [sync] section, an environment that is not
    configured, no [dest]) has run no command: it has only set up
    logging.  Any other abort of a sync is [sys.exit(1)] after the failed
    command, so the exit status of a sync is 0 or 1. *)
Theorem main_sync_aborts (w : World) (args : namespace) (o : outcome) :
  ending (main_sync w args) = Abort o ->
  (exists exn,
      o = Uncaught exn
      /\ trace (main_sync w args)
         = [BasicConfig (loglevel args) (logfile args)])
  \/ (o = SysExit 1
      /\ exists command,
          trace (main_sync w args)
          = [BasicConfig (loglevel args) (logfile args);
             Log INFO MsgStartingRsync; CheckCall command;
             Log CRITICAL MsgRsyncFailed]).
Proof.
  unfold main_sync, set_logging, get_config, dict_item.
  destruct (safe_load w _) as [cfg|exn]; cbn [call ret emit bind];
    [|intros H; cbn in H; injection H as <-; left; eexists; split;
      reflexivity].
  destruct (config_sync cfg) as [sync|]; cbn [call ret bind];
    [|intros H; cbn in H; injection H as <-; left; eexists; split;
      reflexivity].
  destruct (environment args) as [env|]; cbn [call ret bind];
    [|intros H; cbn in H; injection H as <-; left; eexists; split;
      reflexivity].
  destruct (find _ sync) as [[e target]|]; cbn [call ret bind snd];
    [|intros H; cbn in H; injection H as <-; left; eexists; split;
      reflexivity].
  destruct (dict_get "dest" target) as [dest|]; cbn [call ret bind];
    [|intros H; cbn in H; injection H as <-; left; eexists; split;
      reflexivity].
  destruct (check_call w _) as [[]|exn] eqn:E; cbn; [discriminate|].
  intros H. injection H as <-. right. split; [reflexivity|].
  eexists. reflexivity.
Qed.

Lemma main_sync_aborts_witness :
  (exists exn,
      Uncaught "KeyError" = Uncaught exn
      /\ trace (main_sync (Mini.world Cases.synced) (Cases.sync_to "staging"))
         = [BasicConfig "INFO" None])
  \/ (Uncaught "KeyError" = SysExit 1
      /\ exists command,
          trace (main_sync (Mini.world Cases.synced) (Cases.sync_to "staging"))
          = [BasicConfig "INFO" None; Log INFO MsgStartingRsync;
             CheckCall command; Log CRITICAL MsgRsyncFailed]).
Proof.
  apply (main_sync_aborts (Mini.world Cases.synced) (Cases.sync_to "staging")
           (Uncaught "KeyError")).
  reflexivity.
Defined.

(** ** More on single files *)

(** X5. A markdown file whose name is nothing but dots before its last
    dot keeps its whole name: [os.path.splitext] finds no extension, so
    the file [.md] is written as [.md.html], not as [.html]. *)
Theorem dot_name_keeps_md (w : World)
  (projectdir root dest base : string) (var var' fm : dict)
  (content raw c1 html : string) (tmpl ct : template w)
  (pre trt : list event) :
  let file := base ++ ".md" in
  let file_path := PyStr.replace "//" "/" (root ++ "/" ++ file) in
  all_dots base = true ->
  prepared w projectdir file_path fm content raw tmpl pre ->
  set_title fm raw var = (trt, Normal var') ->
  from_string w content = Ok ct ->
  render w ct [("var", BDict var')] = Ok c1 ->
  render w tmpl [("content", BStr c1); ("var", BDict var')] = Ok html ->
  generate_file w projectdir root dest file var
  = ((pre ++ trt
      ++ [Log DEBUG (MsgActuallyRendering file_path);
          WriteFile (dest ++ "/" ++ (base ++ ".md") ++ ".html") html])%list,
     Normal var').
Proof.
  intros file file_path Hb Hprep Ht Hf Hc Hr.
  rewrite (generate_file_ok w projectdir root dest file var var' fm content
             raw c1 html tmpl ct pre trt (endswith_dot_md base) Hprep Ht
             Hf Hc Hr).
  unfold file. now rewrite (splitext_leading_dots base "md" Hb eq_refl).
Qed.

Lemma dot_name_keeps_md_witness :
  generate_file
    (Mini.world
       {| Mini.dir := "p"; Mini.content := Some (Tree [] [".md"]);
          Mini.texts := [("p/content/.md", "# Dot")];
          Mini.templates := [("default.html", "<html>{{ content }}</html>")];
          Mini.existing := []; Mini.settings := Scenarios.plain_config |})
    "p" "p/content/" "p/build/" (EmptyString ++ ".md") []
  = ([Log DEBUG MsgTemplateNotSet; Log DEBUG (MsgSettingTitle (VStr "Dot"));
      Log DEBUG (MsgActuallyRendering "p/content/.md");
      WriteFile "p/build//.md.html" "<html><h1>Dot</h1></html>"],
     Normal [("title", VStr "Dot")]).
Proof.
  refine (dot_name_keeps_md
            (Mini.world
               {| Mini.dir := "p"; Mini.content := Some (Tree [] [".md"]);
                  Mini.texts := [("p/content/.md", "# Dot")];
                  Mini.templates :=
                    [("default.html", "<html>{{ content }}</html>")];
                  Mini.existing := [];
                  Mini.settings := Scenarios.plain_config |})
            "p" "p/content/" "p/build/" EmptyString [] [("title", VStr "Dot")]
            [] "<h1>Dot</h1>" "# Dot" "<h1>Dot</h1>"
            "<html><h1>Dot</h1></html>" "<html>{{ content }}</html>"
            "<h1>Dot</h1>" [Log DEBUG MsgTemplateNotSet]
            [Log DEBUG (MsgSettingTitle (VStr "Dot"))] _ _ _ _ _ _).
  - reflexivity.
  - exists [], [Log DEBUG MsgTemplateNotSet], (VStr "default.html").
    repeat split; reflexivity.
  - reflexivity.
  - reflexivity.
  - reflexivity.
  - reflexivity.
Defined.

(** X22. A document without front-matter block is handled as one with an
    empty mapping: it is rendered with [default.html], which is looked up
    without any check that it exists, and its title is its first heading,
    or [None]. *)
Theorem no_front_matter_defaults (w : World)
  (projectdir root dest file : string) (var : dict) (raw content : string)
  (doc : document w) (tmpl : template w) :
  let file_path := PyStr.replace "//" "/" (root ++ "/" ++ file) in
  let var' := dict_set "title" (get_first_heading raw) var in
  PyStr.endswith file "md" = true ->
  read_text w file_path = Ok raw ->
  Document_read w raw = Ok doc ->
  front_matter w doc = None ->
  HTMLRenderer_render w doc = Ok content ->
  get_template w (projectdir ++ "/templates") (VStr "default.html") = Ok tmpl ->
  generate_file w projectdir root dest file var
  = bind ([Log DEBUG MsgTemplateNotSet;
           Log DEBUG (MsgSettingTitle (get_first_heading raw))], Normal tt)
      (fun _ =>
         html <- render_page w file_path content tmpl var' ;;
         emit (WriteFile (dest ++ "/" ++ fst (PyStr.splitext file) ++ ".html")
                 html) ;;;
         ret var').
Proof.
  intros file_path var' Hmd Hread Hdoc Hfm Hhtml Hg.
  apply (generate_file_prepared w projectdir root dest file var var' []
           content raw tmpl [Log DEBUG MsgTemplateNotSet]
           [Log DEBUG (MsgSettingTitle (get_first_heading raw))] Hmd).
  - exists [], [Log DEBUG MsgTemplateNotSet], (VStr "default.html").
    repeat split; trivial.
    unfold parse_markdown_with_front_matter. fold file_path.
    rewrite Hread. cbn [call ret bind]. rewrite Hdoc. cbn [call ret bind].
    rewrite Hfm. cbn [call ret bind]. now rewrite Hhtml.
  - now apply set_title_no_key.
Qed.

Lemma no_front_matter_defaults_witness :
  generate_file (Mini.world Scenarios.blog) "p" "p/content/" "p/build/"
    "d.md" [("name", VStr "Ben")]
  = ([Log DEBUG MsgTemplateNotSet; Log DEBUG (MsgSettingTitle VNone);
      Log DEBUG (MsgActuallyRendering "p/content/d.md");
      WriteFile "p/build//d.html" "<html><p>just text</p></html>"],
     Normal [("name", VStr "Ben"); ("title", VNone)]).
Proof.
  refine (no_front_matter_defaults (Mini.world Scenarios.blog)
            "p" "p/content/" "p/build/" "d.md" [("name", VStr "Ben")]
            "just text" "<p>just text</p>" "just text"
            "<html>{{ content }}</html>" _ _ _ _ _ _); reflexivity.
Defined.

(** X23. When the configuration loads and the content folder exists, the
    first thing a run does after removing an old build folder is to make
    the build folder anew: the content folder itself is the first
    directory of the walk and its directory is [projectdir/build/]. *)
Theorem build_folder_made_first (w : World) (args : namespace) (cfg : config)
  (t : tree) :
  safe_load w (projectdir args ++ "/config.yml") = Ok cfg ->
  listdir_tree w (projectdir args ++ "/content/") = Some t ->
  exists rest,
    trace (main_generate w args)
    = (BasicConfig (loglevel args) (logfile args)
       :: removal w (projectdir args ++ "/build/")
       ++ Mkdir (projectdir args ++ "/build/") :: rest)%list.
Proof.
  intros Hcfg Hdir. unfold main_generate, set_logging, get_config, walk_content.
  change (projectdir args ++ "/" ++ "content/")
    with (projectdir args ++ "/content/").
  rewrite Hcfg, Hdir. destruct t as [dirs files]. cbn [os_walk for_each].
  cbn [call ret emit bind].
  assert (Ho : occurs (projectdir args ++ "/content/") EmptyString = false)
    by now destruct (projectdir args).
  destruct (generate_dir_mkdir_first w (projectdir args)
              (projectdir args ++ "/build/")
              (projectdir args ++ "/content/" ++ EmptyString)
              (map fst dirs) files (initial_var cfg)) as [rest Hrest].
  rewrite (replace_content_prefix (projectdir args) EmptyString Ho) in Hrest.
  rewrite !string_app_nil_r in Hrest.
  destruct (generate_dir w _ _ _ (initial_var cfg)) as [td rd].
  cbn [trace fst] in Hrest. subst td.
  unfold removal.
  destruct (path_exists w _); destruct rd as [v|o]; cbn [bind];
    repeat match goal with
      | |- context [for_each ?b ?l ?s] =>
          destruct (for_each b l s) as [? [?|?]]
      end;
    cbn; eexists; reflexivity.
Qed.

Lemma build_folder_made_first_witness :
  exists rest,
    trace (main_generate (Mini.world Scenarios.site)
             (Mini.generate Scenarios.site))
    = BasicConfig "INFO" None :: Log DEBUG MsgRemovingBuild
      :: Rmtree "p/build/" :: Mkdir "p/build/" :: rest.
Proof.
  refine (build_folder_made_first (Mini.world Scenarios.site)
            (Mini.generate Scenarios.site)
            {| config_var := Some [("name", VStr "Ben")];
               config_sync := None |}
            (Tree [] ["a.md"; "logo.png"; "run.cmd"]) _ _); reflexivity.
Defined.
